(** * Dashboard.py: masking, row filtering and categorical summaries

    A shallow embedding of the data path of [Dashboard.py]: the table read
    from the spreadsheet is masked (lines 71-101), filtered by the sidebar
    selection (lines 107-142), shown and exported (lines 150-160) and
    summarised by the report sections (lines 186-449).

    Python values are embedded as the inductive [value]; a [str] is a
    [string] whose characters are the code points below 256; a pandas
    DataFrame is its column index together with its rows, each row a finite
    map from column names to cells.  Code that can raise runs in the
    [result] monad; the script itself runs in [script], which also keeps
    the elements drawn on the page so far. *)

From Stdlib Require Import QArith Qcanon Ascii.
From stdpp Require Import base numbers strings list gmap pretty sorting.


(** ** Exceptions *)

Inductive exn :=
  | IndexError
  | TypeError
  | ZeroDivisionError
  | AttributeError
  | StreamlitAPIException.

Inductive result (A : Type) :=
  | Ok (a : A)
  | Raise (e : exn).
Arguments Ok {A} a.
Arguments Raise {A} e.

Global Instance result_ret : MRet result := fun A a => Ok a.

Global Instance result_bind : MBind result := fun A B k m =>
  match m with
  | Ok a => k a
  | Raise e => Raise e
  end.

Fixpoint map_result {A B} (f : A -> result B) (l : list A) : result (list B) :=
  match l with
  | [] => Ok []
  | x :: l' => y ← f x; ys ← map_result f l'; Ok (y :: ys)
  end.

Fixpoint filter_result {A} (p : A -> result bool) (l : list A) : result (list A) :=
  match l with
  | [] => Ok []
  | x :: l' =>
      b ← p x; ys ← filter_result p l'; Ok (if (b : bool) then x :: ys else ys)
  end.

(** ** Python strings *)

Module Str.

Definition code (c : ascii) : N := N_of_ascii c.

(** [str.isspace] on one character, for the code points below 256. *)
Definition isspace (c : ascii) : bool :=
  let n := code c in
  ((9 <=? n) && (n <=? 13) || (28 <=? n) && (n <=? 32)
   || (n =? 133) || (n =? 160))%N.

(** [str.isdigit] on one character: the decimal digits and the three
    superscript digits of Latin-1. *)
Definition isdigit (c : ascii) : bool :=
  let n := code c in
  ((48 <=? n) && (n <=? 57) || (n =? 178) || (n =? 179) || (n =? 185))%N.

(** [str.lower] on one character. *)
Definition lower_char (c : ascii) : ascii :=
  let n := code c in
  if ((65 <=? n) && (n <=? 90)
      || (192 <=? n) && (n <=? 222) && negb (n =? 215))%N
  then ascii_of_N (n + 32) else c.

Fixpoint lower (s : string) : string :=
  match s with
  | EmptyString => EmptyString
  | String c s' => String (lower_char c) (lower s')
  end.

(** ["*" * n] *)
Fixpoint stars (n : nat) : string :=
  match n with
  | O => ""
  | S n' => String "*" (stars n')
  end.

(** [s[:n]] *)
Fixpoint take (n : nat) (s : string) : string :=
  match n, s with
  | S n', String c s' => String c (take n' s')
  | _, _ => ""
  end.

(** ["".join(c for c in s if p(c))] *)
Fixpoint filter (p : ascii -> bool) (s : string) : string :=
  match s with
  | EmptyString => EmptyString
  | String c s' => if p c then String c (filter p s') else filter p s'
  end.

Fixpoint forallb (p : ascii -> bool) (s : string) : bool :=
  match s with
  | EmptyString => true
  | String c s' => p c && forallb p s'
  end.

(** [s.split()]: the maximal runs of non-whitespace characters.  [tok] is
    the run being read. *)
Fixpoint split_go (tok : string) (s : string) : list string :=
  match s with
  | EmptyString => match tok with "" => [] | _ => [tok] end
  | String c s' =>
      if isspace c
      then match tok with
           | "" => split_go "" s'
           | _ => tok :: split_go "" s'
           end
      else split_go (tok +:+ String c "") s'
  end.

Definition split (s : string) : list string := split_go "" s.

(** [s.split(sep)] for a one-character separator: every separator ends a
    field, so the result is never empty. *)
Fixpoint split_on_go (sep : ascii) (tok : string) (s : string) : list string :=
  match s with
  | EmptyString => [tok]
  | String c s' =>
      if Ascii.eqb c sep
      then tok :: split_on_go sep "" s'
      else split_on_go sep (tok +:+ String c "") s'
  end.

Definition split_on (sep : ascii) (s : string) : list string :=
  split_on_go sep "" s.

(** [sep.join(l)] *)
Fixpoint join (sep : string) (l : list string) : string :=
  match l with
  | [] => ""
  | [x] => x
  | x :: l' => x +:+ sep +:+ join sep l'
  end.

(** [s.strip()] *)
Fixpoint lstrip (s : string) : string :=
  match s with
  | EmptyString => EmptyString
  | String c s' => if isspace c then lstrip s' else s
  end.

Fixpoint rstrip (s : string) : string :=
  match s with
  | EmptyString => EmptyString
  | String c s' =>
      match rstrip s' with
      | "" => if isspace c then "" else String c ""
      | t => String c t
      end
  end.

Definition strip (s : string) : string := rstrip (lstrip s).

End Str.

(** ** Python values held by table cells *)

Inductive value :=
  | VNone                 (* None *)
  | VNaN                  (* float('nan'), the missing cell of pandas *)
  | VStr (s : string)
  | VInt (z : Z)
  | VFloat (q : Qc).      (* a finite float, by its exact value *)

Global Instance value_eq_dec : EqDecision value.
Proof. solve_decision. Defined.

(** [pd.isna(v)] on a scalar. *)
Definition isna (v : value) : bool :=
  match v with
  | VNone | VNaN => true
  | _ => false
  end.

(** The cell holds text. *)
Definition is_str (v : value) : bool :=
  match v with
  | VStr _ => true
  | _ => false
  end.

(** The number a numeric cell stands for. *)
Definition num_of (v : value) : option Qc :=
  match v with
  | VInt z => Some (Qc_of_Z z)
  | VFloat q => Some q
  | _ => None
  end.

Definition Qc_eqb (a b : Qc) : bool := bool_decide (a = b).
Definition Qc_leb (a b : Qc) : bool := bool_decide (a ≤ b)%Qc.
Definition Qc_geb (a b : Qc) : bool := Qc_leb b a.
Definition nat_geb (a b : nat) : bool := Nat.leb b a.

(** [a == b] as hashing containers see it ([isin], [unique],
    [value_counts]): numbers compare by value, strings by content, and a
    missing cell matches a missing cell of the same kind. *)
Definition py_eqb (a b : value) : bool :=
  match a, b with
  | VNone, VNone => true
  | VNaN, VNaN => true
  | VStr s, VStr t => String.eqb s t
  | (VInt _ | VFloat _), (VInt _ | VFloat _) =>
      match num_of a, num_of b with
      | Some x, Some y => Qc_eqb x y
      | _, _ => false
      end
  | _, _ => false
  end.

(** ** Series and tables *)

(** [s.dropna()] *)
Definition dropna (l : list value) : list value :=
  List.filter (fun v => negb (isna v)) l.

(** [s.unique()]: the distinct values in order of first appearance. *)
Fixpoint unique (l : list value) : list value :=
  match l with
  | [] => []
  | x :: l' => x :: List.filter (fun y => negb (py_eqb x y)) (unique l')
  end.

(** [v in l] through hashing, as [Series.isin(l)] tests each cell. *)
Definition isin (v : value) (l : list value) : bool :=
  existsb (py_eqb v) l.

(** [a < b] between Python objects: defined inside one kind only. *)
Definition py_ltb (a b : value) : result bool :=
  match a, b with
  | VStr s, VStr t => Ok (String.ltb s t)
  | _, _ =>
      match num_of a, num_of b with
      | Some x, Some y => Ok (negb (Qc_leb y x))
      | _, _ => Raise TypeError
      end
  end.

(** [sorted(l)]: a stable comparison sort; a comparison that raises ends
    it. *)
Fixpoint insert_sorted (x : value) (l : list value) : result (list value) :=
  match l with
  | [] => Ok [x]
  | y :: l' =>
      b ← py_ltb y x;
      if (b : bool) then r ← insert_sorted x l'; Ok (y :: r)
      else Ok (x :: y :: l')
  end.

Fixpoint py_sorted (l : list value) : result (list value) :=
  match l with
  | [] => Ok []
  | x :: l' => s ← py_sorted l'; insert_sorted x s
  end.

(** A stable sort of labelled figures by descending figure, the order of
    [value_counts] and of [sort_values(ascending=False)]. *)
Fixpoint insert_desc {A} (geb : A -> A -> bool) (x : value * A)
    (l : list (value * A)) : list (value * A) :=
  match l with
  | [] => [x]
  | y :: l' =>
      if geb x.2 y.2 then x :: y :: l' else y :: insert_desc geb x l'
  end.

Definition sort_desc {A} (geb : A -> A -> bool) (l : list (value * A))
    : list (value * A) :=
  foldr (insert_desc geb) [] l.

Definition count_of (x : value) (l : list value) : nat :=
  length (List.filter (py_eqb x) l).

(** [s.value_counts()] with its default [dropna=True]: each distinct
    non-null value with its number of occurrences, most frequent first. *)
Definition value_counts (l : list value) : list (value * nat) :=
  let l' := dropna l in
  sort_desc nat_geb (map (fun x => (x, count_of x l')) (unique l')).

(** [counts.sum()] *)
Definition sum_counts (counts : list (value * nat)) : nat :=
  foldr (fun p acc => p.2 + acc) 0 counts.

Definition Qc_of_nat (n : nat) : Qc := Qc_of_Z (Z.of_nat n).

(** [x / total * 100]; the quotient is kept exact where the code holds its
    binary64 rounding. *)
Definition percent (x total : nat) : Qc :=
  (Qc_of_nat x / Qc_of_nat total * Qc_of_Z 100)%Qc.

(** [s.value_counts(normalize=True).mul(100)] *)
Definition value_counts_pct (l : list value) : list (value * Qc) :=
  let counts := value_counts l in
  let total := sum_counts counts in
  map (fun p => (p.1, percent p.2 total)) counts.

(** [s.min()] and [s.max()] of a numeric column, the missing cells
    skipped; [None] (NaN) when no cell holds a number. *)
Definition series_min (l : list value) : option Qc :=
  foldr (fun v acc =>
           match num_of v, acc with
           | Some q, Some m => Some (if Qc_leb q m then q else m)
           | Some q, None => Some q
           | None, _ => acc
           end) None l.

Definition series_max (l : list value) : option Qc :=
  foldr (fun v acc =>
           match num_of v, acc with
           | Some q, Some m => Some (if Qc_leb m q then q else m)
           | Some q, None => Some q
           | None, _ => acc
           end) None l.

(** A DataFrame: the column index and the rows. *)
Record DataFrame := mkDF {
  columns : list string;
  rows : list (gmap string value)
}.

(** [df.empty] *)
Definition df_empty (df : DataFrame) : bool :=
  match columns df, rows df with
  | [], _ | _, [] => true
  | _, _ => false
  end.

(** [c in df.columns] *)
Definition has_column (df : DataFrame) (c : string) : bool :=
  bool_decide (c ∈ columns df).

(** The cell of row [r] in column [c]; an absent cell reads as NaN. *)
Definition cell (r : gmap string value) (c : string) : value :=
  default VNaN (r !! c).

(** [df[c]] *)
Definition series (df : DataFrame) (c : string) : list value :=
  map (fun r => cell r c) (rows df).

(** [df[c] = df[c].apply(f)] *)
Definition apply_column (c : string) (f : value -> result value)
    (df : DataFrame) : result DataFrame :=
  rs ← map_result (fun r => v ← f (cell r c); Ok (<[c := v]> r)) (rows df);
  Ok (mkDF (columns df) rs).

(** [df[mask]] for a mask computed row by row. *)
Definition select_rows (p : gmap string value -> bool) (df : DataFrame)
    : DataFrame :=
  mkDF (columns df) (List.filter p (rows df)).

(** The sidebar selection: the two multiselect values and the slider pair.
    The slider exists only when the table has an [IPK] column; its reading
    is not looked at otherwise. *)
Record Selection := mkSel {
  fakultas : list value;
  semester : list value;
  ipk_min : Qc;
  ipk_max : Qc
}.

(** The figures substituted into the caption of [interpret_top_category]:
    the label, its count, the percentage handed to the one-decimal format,
    and the total. *)
Record Caption := mkCaption {
  cap_label : value;
  cap_top : nat;
  cap_pct : Qc;
  cap_total : nat
}.

(** ** The page

    A run of the script draws elements one after the other; an exception ends
    the run and leaves what was drawn. *)

Inductive section_id :=
  | Semester | Kegiatan | Violin | Keaktifan | Ganggu | Tugas | Pengaruh
  | Menunda | Sungguh | Dampak.

Inductive element :=
  | Info                                     (* the banner before [st.stop()] *)
  | Dataframe (t : DataFrame)                (* [st.dataframe(t)] *)
  | Download (t : DataFrame)                 (* download button over [t.to_csv()] *)
  | Respondents (n : nat)                    (* metric "Jumlah Responden" *)
  | MetricFakultas (n : option nat)          (* metric "Jumlah Fakultas" *)
  | MetricAktif (n : option nat)             (* metric "Mahasiswa Aktif ..." *)
  | ViolinChart (ipk : list value)           (* violin plot of an IPK column *)
  | Subheader (s : section_id)
  | CountChart (s : section_id) (counts : list (value * nat))
  | ShareChart (s : section_id) (dist : list (value * Qc))
  | CaptionMd (s : section_id) (c : Caption)
  | TopShareMd (s : section_id) (top : value * Qc).

Record script (A : Type) := Script {
  page : list element;
  outcome : result A
}.
Arguments Script {A} page outcome.
Arguments page {A} s.
Arguments outcome {A} s.

Global Instance script_ret : MRet script := fun A a => Script [] (Ok a).

Global Instance script_bind : MBind script := fun A B k m =>
  match outcome m with
  | Ok a => Script (page m ++ page (k a)) (outcome (k a))
  | Raise e => Script (page m) (Raise e)
  end.

Definition emit (e : element) : script unit := Script [e] (Ok tt).

Definition lift {A} (r : result A) : script A := Script [] r.

(** ** Masking (lines 71-101) *)

Section Masking.

(** [str(x)] of a finite float is the float formatting of the Python
    runtime; it is a parameter of the development. *)
Variable float_repr : Qc -> string.

(** [str(v)] *)
Definition py_str (v : value) : string :=
  match v with
  | VNone => "None"
  | VNaN => "nan"
  | VStr s => s
  | VInt z => pretty z
  | VFloat q => float_repr q
  end.

(** [p[0] + "*" * (len(p) - 1)]; [p[0]] raises on the empty string. *)
Definition mask_part (p : string) : result string :=
  match p with
  | EmptyString => Raise IndexError
  | String c _ => Ok (String c (Str.stars (String.length p - 1)))
  end.

Definition mask_name (name : value) : result value :=
  if isna name then Ok name
  else
    let parts := Str.split (py_str name) in
    masked_parts ← map_result mask_part parts;
    Ok (VStr (Str.join " " masked_parts)).

Definition mask_npm (npm : value) : result value :=
  let s := py_str npm in
  if (String.length s <=? 3)%nat
  then Ok (VStr (Str.stars (String.length s)))
  else Ok (VStr (Str.take 3 s +:+ "*****")).

Definition mask_phone (phone : value) : result value :=
  let s := py_str phone in
  let digits := Str.filter Str.isdigit s in
  if (String.length digits <=? 3)%nat
  then Ok (VStr (Str.stars (String.length digits)))
  else Ok (VStr (Str.take 3 digits +:+ Str.stars (String.length digits - 3))).

(** The masking block: each identity column that is present is replaced by
    its masked copy; the second phone column is an [elif]. *)
Definition df_masked (df : DataFrame) : result DataFrame :=
  df1 ← (if has_column df "Nama Lengkap"
         then apply_column "Nama Lengkap" mask_name df else Ok df);
  df2 ← (if has_column df1 "NPM"
         then apply_column "NPM" mask_npm df1 else Ok df1);
  if has_column df2 "Nomor Whatsapp"
  then apply_column "Nomor Whatsapp" mask_phone df2
  else if has_column df2 "Nomor Telepon"
  then apply_column "Nomor Telepon" mask_phone df2
  else Ok df2.

End Masking.

(** ** Sidebar options (lines 107-108) *)

Definition column_options (df : DataFrame) (c : string)
    : result (list value) :=
  if has_column df c then py_sorted (unique (dropna (series df c)))
  else Ok [].

Definition fakultas_options (df : DataFrame) : result (list value) :=
  column_options df "Fakultas".

Definition semester_options (df : DataFrame) : result (list value) :=
  column_options df "Semester".

(** Truth value of a list. *)
Definition truthy {A} (l : list A) : bool :=
  match l with
  | [] => false
  | _ => true
  end.

(** [(x >= lo) & (x <= hi)] on one cell: a missing cell compares false, a
    [str] cell cannot be compared with a float. *)
Definition in_range (lo hi : Qc) (v : value) : result bool :=
  match v with
  | VStr _ => Raise TypeError
  | _ =>
      Ok (match num_of v with
          | Some q => Qc_leb lo q && Qc_leb q hi
          | None => false
          end)
  end.

(** ** Filtering (lines 136-142)

    [ipk_min is not None] holds exactly when the table has an [IPK]
    column (lines 123-133). *)
Definition df_filtered (df : DataFrame) (sel : Selection)
    : result DataFrame :=
  fo ← fakultas_options df;
  so ← semester_options df;
  let d0 := df in
  let d1 :=
    if truthy fo
    then select_rows (fun r => isin (cell r "Fakultas") (fakultas sel)) d0
    else d0 in
  let d2 :=
    if truthy so
    then select_rows (fun r => isin (cell r "Semester") (semester sel)) d1
    else d1 in
  if has_column df "IPK"
  then
    rs ← filter_result
           (fun r => in_range (ipk_min sel) (ipk_max sel) (cell r "IPK"))
           (rows d2);
    Ok (mkDF (columns d2) rs)
  else Ok d2.

(** ** Caption helpers (lines 25-43) *)

Definition pct_str (x total : nat) : result Qc :=
  match total with
  | O => Raise ZeroDivisionError
  | _ => Ok (percent x total)
  end.

Definition interpret_top_category (series : option (list value))
    : result (option Caption) :=
  match series with
  | None => Ok None
  | Some [] => Ok None
  | Some s =>
      let counts := value_counts s in
      let total := sum_counts counts in
      if (total =? 0)%nat then Ok None
      else
        match counts with
        | [] => Raise IndexError
        | (top_label, top) :: _ =>
            p ← pct_str top total;
            Ok (Some (mkCaption top_label top p total))
        end
  end.

(** ** The [.str] accessor

    A column is an object column when one of its cells holds an object, a
    [str] or [None]: this is how [read_excel] types a column, and a selection
    of rows keeps the dtype of the column it is taken from.  On an object
    column pandas infers a type from the cells that are not missing, and it
    refuses the accessor with [AttributeError] when they are numbers only; a
    column of another dtype is always refused. *)

Definition holds_object (v : value) : bool :=
  match v with
  | VStr _ | VNone => true
  | _ => false
  end.

(** [df[c].dtype == object] *)
Definition object_column (df : DataFrame) (c : string) : bool :=
  existsb holds_object (series df c).

(** [col.str], for a column with cells [col] that is an object column or
    not, as [object] tells. *)
Definition str_accessor (object : bool) (col : list value) : result unit :=
  if object && (forallb isna col || existsb is_str col) then Ok tt
  else Raise AttributeError.

(** [s.fillna(x)] *)
Definition fillna (x : value) (col : list value) : list value :=
  map (fun v => if isna v then x else v) col.

(** ** Report sections (lines 186-449)

    The sections compute on [df_filtered], a selection of rows of the masked
    table [df], whose dtypes it keeps.  The figures that are binary64
    computations are not embedded: the IPK statistics of the metric rows
    (lines 168, 177 and 178), the caption of the violin plot (lines 237-239)
    and the section on mean working time (lines 340-376). *)

(** [col.str.lower().str.strip() == "ya"] on one cell of a column the
    accessor takes: a cell that is not a [str] becomes NaN and compares
    false. *)
Definition is_ya (v : value) : bool :=
  match v with
  | VStr s => String.eqb (Str.strip (Str.lower s)) "ya"
  | _ => false
  end.

Definition caption_md (s : section_id) (interp : option Caption)
    : script unit :=
  match interp with
  | Some c => emit (CaptionMd s c)
  | None => mret tt
  end.

(** Lines 186-202 and 205-220: a chart of the value counts, then the
    caption. *)
Definition count_section (s : section_id) (t : DataFrame) (c : string)
    : script unit :=
  if has_column t c then
    emit (Subheader s);;
    emit (CountChart s (value_counts (series t c)));;
    interp ← lift (interpret_top_category (Some (series t c)));
    caption_md s interp
  else mret tt.

Definition col_keaktifan : string := "Jumlah Mengikuti Kegiatan_category".

(** Lines 242-257: one metric per category; [st.columns(0)] is refused by
    the toolkit. *)
Definition keaktifan_section (t : DataFrame) : script unit :=
  if has_column t col_keaktifan then
    emit (Subheader Keaktifan);;
    let count_kegiatan := value_counts (series t col_keaktifan) in
    lift (if truthy count_kegiatan then Ok tt
          else Raise StreamlitAPIException);;
    emit (CountChart Keaktifan count_kegiatan);;
    interp ← lift (interpret_top_category (Some (series t col_keaktifan)));
    caption_md Keaktifan interp
  else mret tt.

Definition col_name_ganggu : string :=
  "Apakah kegiatan menganggu aktivitas mengerjakan tugas mata kuliah".

(** Lines 260-279: the counts as shares of their sum. *)
Definition ganggu_section (t : DataFrame) : script unit :=
  if has_column t col_name_ganggu then
    emit (Subheader Ganggu);;
    emit (ShareChart Ganggu (value_counts_pct (series t col_name_ganggu)));;
    interp ← lift (interpret_top_category (Some (series t col_name_ganggu)));
    caption_md Ganggu interp
  else mret tt.

(** [dist.sort_values("Persentase", ascending=False).iloc[0]] *)
Definition top_share (dist : list (value * Qc)) : result (value * Qc) :=
  match sort_desc Qc_geb dist with
  | [] => Raise IndexError
  | p :: _ => Ok p
  end.

(** The rows of [t] whose answer to "Mengikuti kegiatan" reads "ya". *)
Definition ikut_rows (t : DataFrame) : DataFrame :=
  select_rows (fun r => is_ya (cell r "Mengikuti kegiatan")) t.

(** [t[t["Mengikuti kegiatan"].str.lower().str.strip() == "ya"]], the
    respondents who take part in activities (lines 225, 285, 316, 381, 405
    and 429); [t] is [df] or a selection of its rows. *)
Definition df_ikut (df t : DataFrame) : result DataFrame :=
  str_accessor (object_column df "Mengikuti kegiatan")
    (series t "Mengikuti kegiatan");;
  Ok (ikut_rows t).

(** Lines 223-235: the violin plot of the IPK of those who take part. *)
Definition violin_section (df t : DataFrame) : script unit :=
  if has_column t "Mengikuti kegiatan" && has_column t "IPK" then
    emit (Subheader Violin);;
    ikut ← lift (df_ikut df t);
    if df_empty ikut then mret tt
    else emit (ViolinChart (series ikut "IPK"))
  else mret tt.

(** Lines 283-310 and 314-336: the caption is under
    [if not dist.empty]. *)
Definition ikut_section (s : section_id) (df t : DataFrame) (c : string)
    : script unit :=
  if has_column t "Mengikuti kegiatan" && has_column t c then
    emit (Subheader s);;
    ikut ← lift (df_ikut df t);
    if df_empty ikut then mret tt
    else
      let dist := value_counts_pct (series ikut c) in
      emit (ShareChart s dist);;
      if truthy dist then top ← lift (top_share dist); emit (TopShareMd s top)
      else mret tt
  else mret tt.

(** Lines 380-400, 404-424 and 428-449: the heading comes after the
    emptiness test and the caption is not guarded. *)
Definition ya_section (s : section_id) (t : DataFrame) (c : string)
    : script unit :=
  if has_column t "Mengikuti kegiatan" && has_column t c then
    ikut ← lift (df_ikut t t);
    if df_empty ikut then mret tt
    else
      emit (Subheader s);;
      let dist := value_counts_pct (series ikut c) in
      emit (ShareChart s dist);;
      top ← lift (top_share dist);
      emit (TopShareMd s top)
  else mret tt.

Definition col_tugas_cat : string :=
  "Mengerjakan tugas kuliah sebelum deadline_category".
Definition col_pengaruh : string :=
  "Pengaruh kegiatan dalam meningkatkan motivasi mengerjakan tugas mata kuliah".
Definition col_menunda : string :=
  "Jumlah menunda mengerjakan tugas mata kuliah_category".
Definition col_sungguh : string :=
  "Mengerjakan tugas mata kuliah dengan sungguh-sungguh".
Definition col_dampak : string :=
  "Dampak mengikuti kegiatan dalam kemampuan mengerjakan tugas mata kuliah  di bawah tekanan".

(** ** Metric rows, the counts (lines 167, 169 and 179)

    A metric over a missing column shows "N/A", here [None]. *)

(** [len(df_filtered)] *)
Definition num_respondents (t : DataFrame) : nat := length (rows t).

(** [int(df_filtered["Fakultas"].nunique())] *)
Definition num_fakultas (t : DataFrame) : option nat :=
  if has_column t "Fakultas"
  then Some (length (unique (dropna (series t "Fakultas"))))
  else None.

(** [col.str.lower() == "ya"] on one cell: no [strip] here. *)
Definition is_aktif (v : value) : bool :=
  match v with
  | VStr s => String.eqb (Str.lower s) "ya"
  | _ => false
  end.

(** Line 179: the number of rows of [t] that the mask
    [t["Mengikuti kegiatan"].fillna("").str.lower() == "ya"] keeps.  Filling
    a missing cell of a numeric column with [""] yields an object column. *)
Definition aktif_count (df t : DataFrame) : result (option nat) :=
  if has_column t "Mengikuti kegiatan" then
    let col := series t "Mengikuti kegiatan" in
    let filled := fillna (VStr "") col in
    let object := object_column df "Mengikuti kegiatan" || existsb isna col in
    str_accessor object filled;;
    Ok (Some (length (List.filter is_aktif filled)))
  else Ok None.

(** ** The script, top to bottom

    [loaded] is the table returned by [load_data]; an empty one stops the
    script before anything is computed (lines 65-68).  The name [df] is
    rebound to its masked copy, and the last three sections read [df].

    The widgets of the sidebar are the input of a run: [sel] is what the two
    multiselects and the slider returned, [show_table] the state of the
    checkbox.  The slider itself (lines 123-133) is not embedded; it ends
    the script on an [IPK] column it cannot take (text, a single value), and
    so can the section of lines 340-376: the page of a run of the script is
    then the beginning of the page computed here. *)
Definition dashboard (float_repr : Qc -> string) (loaded : DataFrame)
    (sel : Selection) (show_table : bool) : script unit :=
  if df_empty loaded then emit Info
  else
    df ← lift (df_masked float_repr loaded);
    filtered ← lift (df_filtered df sel);
    (if show_table then emit (Dataframe filtered) else mret tt);;
    emit (Download filtered);;
    emit (Respondents (length (rows filtered)));;
    emit (MetricFakultas (num_fakultas filtered));;
    aktif ← lift (aktif_count df filtered);
    emit (MetricAktif aktif);;
    count_section Semester filtered "Semester";;
    count_section Kegiatan filtered "Mengikuti kegiatan";;
    violin_section df filtered;;
    keaktifan_section filtered;;
    ganggu_section filtered;;
    ikut_section Tugas df filtered col_tugas_cat;;
    ikut_section Pengaruh df filtered col_pengaruh;;
    ya_section Menunda df col_menunda;;
    ya_section Sungguh df col_sungguh;;
    ya_section Dampak df col_dampak.

(** ** Loading (lines 53-60)

    [read] is what [pd.read_excel] did: it returned a table or raised; any
    exception is turned into the empty [DataFrame()]. *)
Definition load_data (read : result DataFrame) : DataFrame :=
  match read with
  | Ok df => df
  | Raise _ => mkDF [] []
  end.

(** ** Sample tables *)

Module Sample.

Definition fr (_ : Qc) : string := "".

Definition row (l : list (string * value)) : gmap string value :=
  list_to_map l.

Definition q (n : Z) (d : positive) : Qc := Q2Qc (n # d).

Definition t1 : DataFrame :=
  mkDF ["Nama Lengkap"; "NPM"; "Nomor Whatsapp"; "Fakultas"; "Semester"; "IPK";
        "Mengikuti kegiatan"; col_menunda]
    [ row [("Nama Lengkap", VStr "Budi Santoso"); ("NPM", VInt 21081010);
           ("Nomor Whatsapp", VStr "0812-3456"); ("Fakultas", VStr "Teknik");
           ("Semester", VInt 3); ("IPK", VFloat (q 35 10));
           ("Mengikuti kegiatan", VStr "Ya"); (col_menunda, VStr "Jarang")];
      row [("Nama Lengkap", VStr "Siti Aminah"); ("NPM", VInt 21081011);
           ("Nomor Whatsapp", VStr "0813-9999"); ("Fakultas", VStr "Hukum");
           ("Semester", VInt 5); ("IPK", VFloat (q 28 10));
           ("Mengikuti kegiatan", VStr " ya "); (col_menunda, VStr "Sering")] ].

Definition only_teknik : Selection :=
  mkSel [VStr "Teknik"] [VInt 3; VInt 5] (q 28 10) (q 35 10).

(** What the page shows of [t1] under [only_teknik]. *)
Definition t1_view : DataFrame :=
  mkDF (columns t1)
    [ row [("Nama Lengkap", VStr "B*** S******"); ("NPM", VStr "210*****");
           ("Nomor Whatsapp", VStr "081*****"); ("Fakultas", VStr "Teknik");
           ("Semester", VInt 3); ("IPK", VFloat (q 35 10));
           ("Mengikuti kegiatan", VStr "Ya"); (col_menunda, VStr "Jarang")] ].



(** Faculties Engineering and Law, semesters 3 and 5, IPK 2.8, 3.5 and
    3.9, in every combination. *)
Definition srow (f : string) (s : Z) (g : Qc) : gmap string value :=
  row [("Fakultas", VStr f); ("Semester", VInt s); ("IPK", VFloat g)].

Definition scenario : DataFrame :=
  mkDF ["Fakultas"; "Semester"; "IPK"]
    [ srow "Engineering" 3 (q 28 10); srow "Engineering" 3 (q 35 10);
      srow "Engineering" 3 (q 39 10); srow "Engineering" 5 (q 28 10);
      srow "Engineering" 5 (q 35 10); srow "Engineering" 5 (q 39 10);
      srow "Law" 3 (q 28 10); srow "Law" 3 (q 35 10); srow "Law" 3 (q 39 10);
      srow "Law" 5 (q 28 10); srow "Law" 5 (q 35 10); srow "Law" 5 (q 39 10) ].

Definition scenario_sel : Selection :=
  mkSel [VStr "Engineering"] [VInt 3; VInt 5] (q 3 1) (q 4 1).

Definition scenario_result : DataFrame :=
  mkDF ["Fakultas"; "Semester"; "IPK"]
    [ srow "Engineering" 3 (q 35 10); srow "Engineering" 3 (q 39 10);
      srow "Engineering" 5 (q 35 10); srow "Engineering" 5 (q 39 10) ].

(** One respondent gave no faculty. *)
Definition with_missing : DataFrame :=
  mkDF ["Fakultas"]
    [ row [("Fakultas", VStr "Teknik")]; row [("Fakultas", VNaN)] ].

(** The untouched sidebar of [with_missing], and what it leaves. *)
Definition with_missing_sel : Selection :=
  mkSel [VStr "Teknik"] [] (q 0 1) (q 4 1).

Definition with_missing_view : DataFrame :=
  mkDF ["Fakultas"] [ row [("Fakultas", VStr "Teknik")] ].

(** Three respondents and the question on deadlines. *)
Definition t2 : DataFrame :=
  mkDF ["Fakultas"; "Mengikuti kegiatan"; col_tugas_cat]
    [ row [("Fakultas", VStr "Teknik"); ("Mengikuti kegiatan", VStr "Ya");
           (col_tugas_cat, VStr "Tepat waktu")];
      row [("Fakultas", VStr "Hukum"); ("Mengikuti kegiatan", VStr "YA ");
           (col_tugas_cat, VStr "Terlambat")];
      row [("Fakultas", VStr "Teknik"); ("Mengikuti kegiatan", VStr "Tidak");
           (col_tugas_cat, VStr "Terlambat")] ].

Definition t2_teknik : Selection :=
  mkSel [VStr "Teknik"] [] (q 0 1) (q 4 1).

Definition t2_view : DataFrame :=
  mkDF (columns t2)
    [ row [("Fakultas", VStr "Teknik"); ("Mengikuti kegiatan", VStr "Ya");
           (col_tugas_cat, VStr "Tepat waktu")];
      row [("Fakultas", VStr "Teknik"); ("Mengikuti kegiatan", VStr "Tidak");
           (col_tugas_cat, VStr "Terlambat")] ].

(** [t1] filtered by [only_teknik], without masking. *)
Definition t1_filtered : DataFrame :=
  mkDF (columns t1)
    [ row [("Nama Lengkap", VStr "Budi Santoso"); ("NPM", VInt 21081010);
           ("Nomor Whatsapp", VStr "0812-3456"); ("Fakultas", VStr "Teknik");
           ("Semester", VInt 3); ("IPK", VFloat (q 35 10));
           ("Mengikuti kegiatan", VStr "Ya"); (col_menunda, VStr "Jarang")] ].

(** The state of the sidebar of [t1] before it is touched. *)
Definition t1_default : Selection :=
  mkSel [VStr "Hukum"; VStr "Teknik"] [VInt 3; VInt 5] (q 28 10) (q 35 10).

(** No respondent gave a faculty; the sidebar as it comes up, with nothing
    to select in the faculty list. *)
Definition no_faculty : DataFrame :=
  mkDF ["Fakultas"; "Semester"; "IPK"]
    [ row [("Fakultas", VNaN); ("Semester", VInt 3); ("IPK", VFloat (q 35 10))];
      row [("Fakultas", VNaN); ("Semester", VInt 5); ("IPK", VFloat (q 28 10))] ].

Definition no_faculty_sel : Selection :=
  mkSel [] [VInt 3; VInt 5] (q 28 10) (q 35 10).

End Sample.

(** * Vocabulary of the statements *)

(** [s] is made of asterisks only. *)
Definition all_stars (s : string) : Prop :=
  Str.forallb (Ascii.eqb "*") s = true.

(** [s] holds no whitespace. *)
Definition no_space (s : string) : Prop :=
  Str.forallb (fun c => negb (Str.isspace c)) s = true.

(** A token of [str.split()]: non-empty and free of whitespace. *)
Definition is_token (s : string) : Prop := s <> "" /\ no_space s.

(** [m] is [p] with every character but the first replaced by an
    asterisk. *)
Definition masked_token (p m : string) : Prop :=
  String.length m = String.length p /\
  exists c rest rest',
    p = String c rest /\ m = String c rest' /\ all_stars rest'.

(** The table an element shows or exports, if it is one of the two views. *)
Definition view_of (e : element) : option DataFrame :=
  match e with
  | Dataframe t | Download t => Some t
  | _ => None
  end.

(** The element is the table or the export button. *)
Definition is_view (e : element) : bool :=
  match view_of e with
  | Some _ => true
  | None => false
  end.

(** The share chart of the section "Menunda". *)
Definition is_menunda_chart (e : element) : bool :=
  match e with
  | ShareChart Menunda _ => true
  | _ => false
  end.

(** The script draws no element of the kind [f]. *)
Definition absent {A} (f : element -> bool) (m : script A) : Prop :=
  forall e, e ∈ page m -> f e = false.

(** The boolean a successful range test returns. *)
Definition in_range_b (lo hi : Qc) (v : value) : bool :=
  match num_of v with
  | Some q => Qc_leb lo q && Qc_leb q hi
  | None => false
  end.

(** The test a row passes to stay in [df_filtered], given the two option
    lists and whether the table has an [IPK] column. *)
Definition keep_row (fo so : list value) (ipk : bool) (sel : Selection)
    (r : gmap string value) : bool :=
  (if truthy fo then isin (cell r "Fakultas") (fakultas sel) else true)
  && (if truthy so then isin (cell r "Semester") (semester sel) else true)
  && (if ipk then in_range_b (ipk_min sel) (ipk_max sel) (cell r "IPK")
      else true).

(** The rows that reach the IPK comparison. *)
Definition keep_row_text (fo so : list value) (sel : Selection)
    (r : gmap string value) : bool :=
  (if truthy fo then isin (cell r "Fakultas") (fakultas sel) else true)
  && (if truthy so then isin (cell r "Semester") (semester sel) else true).

(** What [py_eqb] compares: the content of a value. *)
Inductive vkey :=
  | KNone
  | KNaN
  | KStr (s : string)
  | KNum (q : Qc).

(** Two values are equal for [py_eqb] exactly when their keys are. *)
Definition key (v : value) : vkey :=
  match v with
  | VNone => KNone
  | VNaN => KNaN
  | VStr s => KStr s
  | VInt z => KNum (Qc_of_Z z)
  | VFloat q => KNum q
  end.

(** The kind of a value, as far as [<] is concerned: text, number, or
    neither. *)
Definition kind (v : value) : option bool :=
  match v with
  | VStr _ => Some true
  | VInt _ | VFloat _ => Some false
  | _ => None
  end.

(** All the values of [l] are text, or all are numbers. *)
Definition same_kind (l : list value) : Prop :=
  exists k : bool, Forall (fun x => kind x = Some k) l.

(** The column is in the table and holds a value that is not missing. *)
Definition has_values (df : DataFrame) (c : string) : bool :=
  has_column df c && truthy (dropna (series df c)).

(** [l] holds text only, or numbers only. *)
Definition one_kind (l : list value) : bool :=
  forallb (fun v => bool_decide (kind v = Some true)) l
  || forallb (fun v => bool_decide (kind v = Some false)) l.

(** The columns the filter reads can be sorted and compared: the faculty
    values are of one kind, so are the semester values, and no IPK cell
    holds text. *)
Definition well_typed (df : DataFrame) : bool :=
  one_kind (dropna (series df "Fakultas"))
  && one_kind (dropna (series df "Semester"))
  && forallb (fun v => negb (is_str v)) (series df "IPK").


(** The same three tests as one boolean, to select rows with. *)
Definition selected (sel : Selection) (r : gmap string value) : bool :=
  isin (cell r "Fakultas") (fakultas sel)
  && isin (cell r "Semester") (semester sel)
  && in_range_b (ipk_min sel) (ipk_max sel) (cell r "IPK").

(** No cell of the column is missing. *)
Definition no_missing (df : DataFrame) (c : string) : bool :=
  forallb (fun v => negb (isna v)) (series df c).

(** Every cell of the column is a number. *)
Definition all_numbers (df : DataFrame) (c : string) : bool :=
  forallb (fun v => bool_decide (is_Some (num_of v))) (series df c).

(** A test that does not tell equal values apart. *)
Definition respects (P : value -> bool) : Prop :=
  forall a b, py_eqb a b = true -> P a = P b.

(** The sum of the shares of a distribution. *)
Definition sum_shares (dist : list (value * Qc)) : Qc :=
  foldr (fun p acc => (p.2 + acc)%Qc) 0%Qc dist.

Section MaskedRows.

Variable float_repr : Qc -> string.

(** The value of a call that returns. *)
Definition returned {A} (d : A) (r : result A) : A :=
  match r with
  | Ok a => a
  | Raise _ => d
  end.

(** Column [c] of row [r] replaced by [f] of it, when the table has the
    column. *)
Definition mask_cell (c : string) (f : value -> result value)
    (cols : list string) (r : gmap string value) : gmap string value :=
  if bool_decide (c ∈ cols) then <[c := returned VNaN (f (cell r c))]> r else r.

(** What the masking block makes of one row of a table with columns
    [cols]. *)
Definition mask_row (cols : list string) (r : gmap string value)
    : gmap string value :=
  let r1 := mask_cell "Nama Lengkap" (mask_name float_repr) cols r in
  let r2 := mask_cell "NPM" (mask_npm float_repr) cols r1 in
  if bool_decide ("Nomor Whatsapp" ∈ cols)
  then mask_cell "Nomor Whatsapp" (mask_phone float_repr) cols r2
  else mask_cell "Nomor Telepon" (mask_phone float_repr) cols r2.


End MaskedRows.

(** ** Vocabulary of the further properties *)

(** The figure of [p] is not below the figure of [q]. *)
Definition desc {A} (geb : A -> A -> bool) (p q : value * A) : Prop :=
  geb p.2 q.2 = true.

(** A character of a masked phone number: a digit or an asterisk. *)
Definition digit_or_star (c : ascii) : bool :=
  Str.isdigit c || Ascii.eqb c "*".

(** The columns the masking block may rewrite. *)
Definition identity_columns : list string :=
  ["Nama Lengkap"; "NPM"; "Nomor Whatsapp"; "Nomor Telepon"].

(** [a < b] holds. *)
Definition py_lt (a b : value) : Prop := py_ltb a b = Ok true.

(** [b < a] does not hold. *)
Definition py_le (a b : value) : Prop := py_ltb b a = Ok false.

(** The three tests of the filter block, each in force only when its
    column has something to test: a faculty or semester column with a value
    that is not missing, an [IPK] column in the table. *)
Definition passes (df : DataFrame) (sel : Selection)
    (r : gmap string value) : Prop :=
  (has_values df "Fakultas" = true ->
   isin (cell r "Fakultas") (fakultas sel) = true)
  /\ (has_values df "Semester" = true ->
      isin (cell r "Semester") (semester sel) = true)
  /\ (has_column df "IPK" = true ->
      exists g, num_of (cell r "IPK") = Some g
                /\ (ipk_min sel <= g)%Qc /\ (g <= ipk_max sel)%Qc).

(** The same tests as one boolean, to select rows with. *)
Definition passes_b (df : DataFrame) (sel : Selection)
    (r : gmap string value) : bool :=
  (if has_values df "Fakultas"
   then isin (cell r "Fakultas") (fakultas sel) else true)
  && (if has_values df "Semester"
      then isin (cell r "Semester") (semester sel) else true)
  && (if has_column df "IPK"
      then in_range_b (ipk_min sel) (ipk_max sel) (cell r "IPK") else true).

(** The last three sections, which read the masked table only. *)
Definition late_sections (df : DataFrame) : script unit :=
  ya_section Menunda df col_menunda;;
  ya_section Sungguh df col_sungguh;;
  ya_section Dampak df col_dampak.

(** The script from line 176 on, over the masked table [df] and the
    filtered table [filtered]: the count of active students and the report
    sections in script order. *)
Definition sections (df filtered : DataFrame) : script unit :=
  aktif ← lift (aktif_count df filtered);
  emit (MetricAktif aktif);;
  count_section Semester filtered "Semester";;
  count_section Kegiatan filtered "Mengikuti kegiatan";;
  violin_section df filtered;;
  keaktifan_section filtered;;
  ganggu_section filtered;;
  ikut_section Tugas df filtered col_tugas_cat;;
  ikut_section Pengaruh df filtered col_pengaruh;;
  late_sections df.

(** The [.str] accessor refuses the participation column of [t], a
    selection of rows of [df]: the column of [df] is not an object column,
    or the cells of [t] that are not missing are numbers only. *)
Definition str_refused (df t : DataFrame) : Prop :=
  object_column df "Mengikuti kegiatan" = false
  \/ ((exists v, v ∈ series t "Mengikuti kegiatan" /\ isna v = false)
      /\ forall v, v ∈ series t "Mengikuti kegiatan" -> is_str v = false).



(** The element is the banner. *)
Definition is_info (e : element) : bool :=
  match e with
  | Info => true
  | _ => false
  end.

(** The element is the table, shown to the user. *)
Definition is_dataframe (e : element) : bool :=
  match e with
  | Dataframe _ => true
  | _ => false
  end.

Global Instance section_id_eq_dec : EqDecision section_id.
Proof. solve_decision. Defined.

(** The element is the share chart of section [s]. *)
Definition is_share_chart (s : section_id) (e : element) : bool :=
  match e with
  | ShareChart s' _ => bool_decide (s' = s)
  | _ => false
  end.

(** The distribution over the respondents of [t] who take part in
    activities, for the question in column [c]. *)
Definition ikut_shares (t : DataFrame) (c : string) : list (value * Qc) :=
  value_counts_pct (series (ikut_rows t) c).

(** The distribution behind the share chart of each section that has one,
    given the masked table and the filtered table. *)
Definition share_chart_source (s : section_id) (df filtered : DataFrame)
    : option (list (value * Qc)) :=
  match s with
  | Ganggu => Some (value_counts_pct (series filtered col_name_ganggu))
  | Tugas => Some (ikut_shares filtered col_tugas_cat)
  | Pengaruh => Some (ikut_shares filtered col_pengaruh)
  | Menunda => Some (ikut_shares df col_menunda)
  | Sungguh => Some (ikut_shares df col_sungguh)
  | Dampak => Some (ikut_shares df col_dampak)
  | _ => None
  end.

(** * Properties *)

(** ** Worked examples *)

Example split_ex :
  Str.split "  Budi   Santoso  x " = ["Budi"; "Santoso"; "x"].
Proof. reflexivity. Qed.

Example split_on_ex : Str.split_on " " " a  b" = [""; "a"; ""; "b"].
Proof. reflexivity. Qed.

Example strip_lower_ex : Str.strip (Str.lower "  YA ") = "ya".
Proof. reflexivity. Qed.

Example mask_name_ex :
  mask_name Sample.fr (VStr "Budi  Santoso") = Ok (VStr "B*** S******").
Proof. reflexivity. Qed.

Example mask_npm_int_ex :
  mask_npm Sample.fr (VInt 21081010) = Ok (VStr "210*****").
Proof. vm_compute. reflexivity. Qed.

Example mask_npm_negative_ex :
  mask_npm Sample.fr (VInt (-7)) = Ok (VStr "**").
Proof. vm_compute. reflexivity. Qed.

Example mask_phone_ex :
  mask_phone Sample.fr (VStr "+62 812-3456") = Ok (VStr "628******").
Proof. reflexivity. Qed.

Example value_counts_ex :
  value_counts [VStr "a"; VNaN; VStr "b"; VStr "b"; VInt 3; VFloat (Sample.q 3 1)]
  = [(VStr "b", 2); (VInt 3, 2); (VStr "a", 1)].
Proof. vm_compute. reflexivity. Qed.

Example py_sorted_ex :
  py_sorted [VStr "b"; VStr "a"; VStr "c"] = Ok [VStr "a"; VStr "b"; VStr "c"]
  /\ py_sorted [VInt 5; VStr "a"] = Raise TypeError.
Proof. split; vm_compute; reflexivity. Qed.

(** Participation ["Ya"; "Ya"; "Tidak"]: the caption names "Ya", two of
    three respondents. *)
Example interpret_top_category_ex :
  exists c,
    interpret_top_category (Some [VStr "Ya"; VStr "Ya"; VStr "Tidak"])
    = Ok (Some c)
    /\ cap_label c = VStr "Ya" /\ cap_top c = 2 /\ cap_total c = 3.
Proof. eexists. split; [reflexivity|]. repeat split. Qed.

(** ** String helpers *)

Lemma app_length_str (a b : string) :
  String.length (a +:+ b) = String.length a + String.length b.
Proof. induction a as [|c a IH]; simpl; [reflexivity | by rewrite IH]. Qed.

Lemma app_nil_r_str (a : string) : a +:+ "" = a.
Proof.
  induction a as [|c a IH]; [reflexivity|].
  change (String c (a +:+ "") = String c a). by rewrite IH.
Qed.

Lemma app_assoc_str (a b c : string) : (a +:+ b) +:+ c = a +:+ (b +:+ c).
Proof.
  induction a as [|x a IH]; [reflexivity|].
  change (String x ((a +:+ b) +:+ c) = String x (a +:+ (b +:+ c))).
  by rewrite IH.
Qed.

Lemma stars_length (n : nat) : String.length (Str.stars n) = n.
Proof. induction n as [|n IH]; simpl; [reflexivity | by rewrite IH]. Qed.

Lemma stars_all (n : nat) : all_stars (Str.stars n).
Proof. unfold all_stars. induction n as [|n IH]; simpl; [reflexivity | exact IH]. Qed.

Lemma take_length (n : nat) (s : string) :
  n <= String.length s -> String.length (Str.take n s) = n.
Proof.
  revert s; induction n as [|n IH]; intros s Hn; [reflexivity|].
  destruct s as [|c s]; simpl in *; [lia|].
  rewrite IH; [reflexivity | lia].
Qed.

Lemma take_take_app (n : nat) (s t : string) :
  n <= String.length s -> Str.take n (Str.take n s +:+ t) = Str.take n s.
Proof.
  revert s; induction n as [|n IH]; intros s Hn; [reflexivity|].
  destruct s as [|c s]; simpl in *; [lia|].
  rewrite IH; [reflexivity | lia].
Qed.

Lemma forallb_app_str (p : ascii -> bool) (a b : string) :
  Str.forallb p (a +:+ b) = Str.forallb p a && Str.forallb p b.
Proof.
  induction a as [|c a IH]; simpl; [reflexivity|].
  rewrite IH. by rewrite andb_assoc.
Qed.

Lemma no_space_snoc (tok : string) (c : ascii) :
  no_space tok -> Str.isspace c = false -> no_space (tok +:+ String c "").
Proof.
  unfold no_space; intros Ht Hc.
  rewrite forallb_app_str, Ht; simpl. by rewrite Hc.
Qed.

Lemma snoc_not_empty (tok : string) (c : ascii) : tok +:+ String c "" <> "".
Proof. destruct tok; discriminate. Qed.

(** Every token produced by [split_go] is a token, provided the run being
    read is free of whitespace. *)
Lemma split_go_tokens (s tok : string) :
  no_space tok -> Forall is_token (Str.split_go tok s).
Proof.
  revert tok; induction s as [|c s IH]; intros tok Htok; simpl.
  - destruct tok; [constructor|].
    constructor; [split; [discriminate | exact Htok] | constructor].
  - destruct (Str.isspace c) eqn:Hc.
    + destruct tok.
      * apply IH; reflexivity.
      * constructor; [split; [discriminate | exact Htok]|].
        apply IH; reflexivity.
    + apply IH. by apply no_space_snoc.
Qed.

Lemma split_tokens (s : string) : Forall is_token (Str.split s).
Proof. apply split_go_tokens; reflexivity. Qed.

(** Reading a whitespace-free word extends the current run. *)
Lemma split_go_word (w tok s : string) :
  no_space w -> Str.split_go tok (w +:+ s) = Str.split_go (tok +:+ w) s.
Proof.
  revert tok; induction w as [|c w IH]; intros tok Hw.
  - by rewrite app_nil_r_str.
  - unfold no_space in Hw; simpl in Hw.
    apply andb_prop in Hw as [Hc Hw].
    apply negb_true_iff in Hc.
    change (String c w +:+ s) with (String c (w +:+ s)).
    cbn [Str.split_go]. rewrite Hc.
    rewrite IH by exact Hw.
    by rewrite app_assoc_str.
Qed.

(** Splitting undoes joining with single spaces on a list of tokens. *)
Lemma split_join (l : list string) :
  Forall is_token l -> Str.split (Str.join " " l) = l.
Proof.
  unfold Str.split.
  induction l as [|x l IH]; intros Hl; [reflexivity|].
  apply Forall_cons in Hl as [[Hne Hns] Hl].
  destruct l as [|y l].
  - simpl. rewrite <- (app_nil_r_str x) at 1.
    rewrite split_go_word by exact Hns. simpl.
    destruct x; [done | reflexivity].
  - change (Str.join " " (x :: y :: l))
      with (x +:+ " " +:+ Str.join " " (y :: l)).
    rewrite split_go_word by exact Hns. simpl.
    destruct x as [|c x]; [done|].
    simpl. f_equal. apply IH, Hl.
Qed.

Lemma split_on_go_word (sep : ascii) (w tok s : string) :
  Str.forallb (fun c => negb (Ascii.eqb c sep)) w = true ->
  Str.split_on_go sep tok (w +:+ s) = Str.split_on_go sep (tok +:+ w) s.
Proof.
  revert tok; induction w as [|c w IH]; intros tok Hw.
  - by rewrite app_nil_r_str.
  - simpl in Hw. apply andb_prop in Hw as [Hc Hw].
    apply negb_true_iff in Hc.
    change (String c w +:+ s) with (String c (w +:+ s)).
    cbn [Str.split_on_go]. rewrite Hc.
    rewrite IH by exact Hw.
    by rewrite app_assoc_str.
Qed.

Lemma no_space_no_blank (w : string) :
  no_space w -> Str.forallb (fun c => negb (Ascii.eqb c " ")) w = true.
Proof.
  unfold no_space. induction w as [|c w IH]; simpl; [reflexivity|].
  intros H. apply andb_prop in H as [Hc Hw].
  rewrite IH by exact Hw. rewrite andb_true_r.
  destruct (Ascii.eqb_spec c " ") as [->|]; [discriminate Hc | reflexivity].
Qed.

(** On a non-empty list of tokens, splitting at each single space also
    undoes the join. *)
Lemma split_on_join (l : list string) :
  l <> [] -> Forall is_token l -> Str.split_on " " (Str.join " " l) = l.
Proof.
  unfold Str.split_on.
  induction l as [|x l IH]; intros Hne Hl; [done|].
  apply Forall_cons in Hl as [[_ Hns] Hl].
  destruct l as [|y l].
  - simpl. rewrite <- (app_nil_r_str x) at 1.
    rewrite split_on_go_word by (by apply no_space_no_blank). reflexivity.
  - change (Str.join " " (x :: y :: l))
      with (x +:+ " " +:+ Str.join " " (y :: l)).
    rewrite split_on_go_word by (by apply no_space_no_blank). simpl.
    f_equal. apply IH; [discriminate | exact Hl].
Qed.

Lemma all_stars_no_space (s : string) : all_stars s -> no_space s.
Proof.
  unfold all_stars, no_space.
  induction s as [|c s IH]; cbn [Str.forallb]; [reflexivity|].
  intros H. apply andb_prop in H as [Hc Hs].
  apply Ascii.eqb_eq in Hc as <-. by rewrite IH.
Qed.

Lemma take_prefix (n : nat) (s : string) :
  exists rest, s = Str.take n s +:+ rest.
Proof.
  revert s; induction n as [|n IH]; intros s; [by exists s|].
  destruct s as [|c s]; [by exists ""|].
  destruct (IH s) as [rest Hrest]. exists rest.
  change (String c s = String c (Str.take n s +:+ rest)).
  f_equal. exact Hrest.
Qed.

(** ** The masking functions *)

Section MaskingFacts.

Variable float_repr : Qc -> string.

Lemma mask_part_token (p : string) :
  is_token p ->
  exists m, mask_part p = Ok m /\ masked_token p m /\ is_token m.
Proof.
  intros [Hne Hns]. destruct p as [|c rest]; [done|].
  exists (String c (Str.stars (String.length rest))).
  assert (Hlen : String.length (String c rest) - 1 = String.length rest)
    by (simpl; lia).
  split; [unfold mask_part; by rewrite Hlen|].
  split.
  - split; [simpl; by rewrite stars_length|].
    exists c, rest, (Str.stars (String.length rest)).
    auto using stars_all.
  - split; [discriminate|].
    unfold no_space in *. simpl in *.
    apply andb_prop in Hns as [Hc _]. rewrite Hc. simpl.
    apply all_stars_no_space, stars_all.
Qed.

Lemma mask_parts_tokens (parts : list string) :
  Forall is_token parts ->
  exists ms, map_result mask_part parts = Ok ms
             /\ Forall2 masked_token parts ms /\ Forall is_token ms.
Proof.
  induction parts as [|p parts IH]; intros Hall.
  - exists []. repeat split; constructor.
  - apply Forall_cons in Hall as [Hp Hall].
    destruct (mask_part_token p Hp) as (m & Hm & Hpm & Htm).
    destruct (IH Hall) as (ms & Hms & Hpms & Htms).
    exists (m :: ms). simpl. rewrite Hm. simpl. rewrite Hms. simpl.
    repeat split; by constructor.
Qed.

(** [mask_name] on a value that is not missing: the result is a [str], its
    tokens are the masked tokens of the input, one for one, and they are
    separated by single spaces. *)
Lemma mask_name_tokens (name : value) :
  isna name = false ->
  exists out,
    mask_name float_repr name = Ok (VStr out)
    /\ Forall2 masked_token (Str.split (py_str float_repr name)) (Str.split out)
    /\ out = Str.join " " (Str.split out)
    /\ (Str.split out <> [] -> Str.split_on " " out = Str.split out).
Proof.
  intros Hna.
  destruct (mask_parts_tokens (Str.split (py_str float_repr name)))
    as (ms & Hms & Hpms & Htms); [apply split_tokens|].
  exists (Str.join " " ms).
  unfold mask_name. rewrite Hna, Hms. simpl.
  rewrite (split_join ms Htms).
  repeat split; try done.
  intros Hne. by apply split_on_join.
Qed.

Lemma mask_name_na (name : value) :
  isna name = true -> mask_name float_repr name = Ok name.
Proof. intros Hna. unfold mask_name. by rewrite Hna. Qed.

(** None of the three masking functions raises. *)
Lemma mask_name_total (v : value) : exists w, mask_name float_repr v = Ok w.
Proof.
  destruct (isna v) eqn:Hna.
  - exists v. by apply mask_name_na.
  - destruct (mask_name_tokens v Hna) as (out & Hout & _). by exists (VStr out).
Qed.

Lemma mask_npm_total (v : value) : exists w, mask_npm float_repr v = Ok w.
Proof. unfold mask_npm. destruct (_ <=? _)%nat; eauto. Qed.

Lemma mask_phone_total (v : value) : exists w, mask_phone float_repr v = Ok w.
Proof. unfold mask_phone. destruct (_ <=? _)%nat; eauto. Qed.

(** C9: [mask_name] passes a missing value through; on any other value it
    splits [str(name)] on whitespace, keeps the first character of every
    token and replaces the others by asterisks, and joins the masked tokens
    with single spaces: the output has as many tokens as the input, each of
    the length of the token it masks. *)
Theorem mask_name_spec (name : value) :
  (isna name = true -> mask_name float_repr name = Ok name)
  /\ (isna name = false ->
      exists out,
        mask_name float_repr name = Ok (VStr out)
        /\ length (Str.split out) = length (Str.split (py_str float_repr name))
        /\ Forall2 masked_token (Str.split (py_str float_repr name)) (Str.split out)
        /\ out = Str.join " " (Str.split out)
        /\ (Str.split out <> [] -> Str.split_on " " out = Str.split out)).
Proof.
  split; [apply mask_name_na|].
  intros Hna.
  destruct (mask_name_tokens name Hna) as (out & Hout & Htok & Hjoin & Hsp).
  exists out. repeat split; try assumption.
  symmetry. by eapply Forall2_length.
Qed.

(** C5: [mask_npm] works on [str(npm)]: a string of at most three
    characters becomes as many asterisks; a longer one keeps its first three
    characters, followed by exactly five asterisks whatever its length. *)
Theorem mask_npm_spec :
  (forall npm : value,
      let s := py_str float_repr npm in
      exists out,
        mask_npm float_repr npm = Ok (VStr out)
        /\ (String.length s <= 3 ->
            String.length out = String.length s /\ all_stars out)
        /\ (3 < String.length s ->
            exists pre rest,
              s = pre +:+ rest /\ String.length pre = 3
              /\ out = pre +:+ "*****" /\ String.length out = 8))
  /\ mask_npm float_repr (VStr "12") = Ok (VStr "**")
  /\ mask_npm float_repr (VStr "123456789") = Ok (VStr "123*****").
Proof.
  split; [|split; reflexivity].
  intros npm s. unfold mask_npm. fold s.
  destruct (String.length s <=? 3)%nat eqn:Hlen.
  - apply Nat.leb_le in Hlen.
    exists (Str.stars (String.length s)). split; [reflexivity|].
    split; [intros _; split; [apply stars_length | apply stars_all] | lia].
  - apply Nat.leb_gt in Hlen.
    exists (Str.take 3 s +:+ "*****"). split; [reflexivity|].
    split; [lia|]. intros _.
    destruct (take_prefix 3 s) as [rest Hrest].
    exists (Str.take 3 s), rest.
    assert (Hpre : String.length (Str.take 3 s) = 3) by (apply take_length; lia).
    repeat split; try assumption.
    rewrite app_length_str, Hpre. reflexivity.
Qed.

(** C3, at the missing values: [mask_name] returns them unchanged, while
    [mask_npm] and [mask_phone] mask the text ["nan"] or ["None"] that
    [str] makes of them. *)
Theorem mask_missing_values :
  mask_name float_repr VNaN = Ok VNaN
  /\ mask_name float_repr VNone = Ok VNone
  /\ mask_npm float_repr VNaN = Ok (VStr "***")
  /\ mask_npm float_repr VNone = Ok (VStr "Non*****")
  /\ mask_phone float_repr VNaN = Ok (VStr "")
  /\ mask_phone float_repr VNone = Ok (VStr "").
Proof. repeat split; reflexivity. Qed.

End MaskingFacts.

(** ** Results and pages *)

Lemma map_result_ok {A B} (f : A -> result B) (g : A -> B) (l : list A) :
  (forall x, f x = Ok (g x)) -> map_result f l = Ok (map g l).
Proof.
  intros Hf. induction l as [|x l IH]; [reflexivity|].
  simpl. rewrite Hf. simpl. rewrite IH. reflexivity.
Qed.

Lemma page_bind {A B} (m : script A) (k : A -> script B) :
  page (m ≫= k) =
  match outcome m with
  | Ok a => page m ++ page (k a)
  | Raise _ => page m
  end.
Proof. unfold mbind, script_bind. by destruct (outcome m). Qed.

Lemma elem_of_page_bind {A B} (m : script A) (k : A -> script B) (e : element) :
  e ∈ page (m ≫= k) ->
  e ∈ page m \/ exists a, outcome m = Ok a /\ e ∈ page (k a).
Proof.
  rewrite page_bind. destruct (outcome m) as [a|x] eqn:Hm; [|by left].
  intros [?|?]%elem_of_app; [by left | right; by exists a].
Qed.

Section Absent.

Variable f : element -> bool.

Lemma absent_bind {A B} (m : script A) (k : A -> script B) :
  absent f m -> (forall a, absent f (k a)) -> absent f (m ≫= k).
Proof.
  intros Hm Hk e [He|(a & _ & He)]%elem_of_page_bind; [by apply Hm|].
  by apply (Hk a).
Qed.

Lemma absent_ret {A} (a : A) : absent f (mret a : script A).
Proof. intros e He. by apply elem_of_nil in He. Qed.

Lemma absent_lift {A} (r : result A) : absent f (lift r).
Proof. intros e He. by apply elem_of_nil in He. Qed.

Lemma absent_emit (e : element) : f e = false -> absent f (emit e).
Proof. intros He e' ->%list_elem_of_singleton. exact He. Qed.

Lemma absent_if {A} (b : bool) (m1 m2 : script A) :
  absent f m1 -> absent f m2 -> absent f (if b then m1 else m2).
Proof. by destruct b. Qed.

Lemma absent_caption_md (s : section_id) (interp : option Caption) :
  (forall c, f (CaptionMd s c) = false) -> absent f (caption_md s interp).
Proof. intros H. destruct interp; [by apply absent_emit | apply absent_ret]. Qed.

End Absent.

(** Walks through a section, one statement at a time. *)
Ltac absent_step :=
  first
    [ apply absent_bind; [|intros ?]
    | apply absent_if
    | apply absent_ret
    | apply absent_lift
    | apply absent_caption_md; intros ?; reflexivity
    | apply absent_emit; reflexivity ].

Ltac absent_sections :=
  unfold sections, late_sections, count_section, violin_section,
    keaktifan_section, ganggu_section, ikut_section, ya_section;
  repeat absent_step.

(** ** Tables *)



Lemma has_column_true (df : DataFrame) (c : string) :
  has_column df c = true <-> c ∈ columns df.
Proof. unfold has_column. apply bool_decide_eq_true. Qed.

Lemma has_column_false (df : DataFrame) (c : string) :
  has_column df c = false <-> c ∉ columns df.
Proof. unfold has_column. apply bool_decide_eq_false. Qed.

Lemma filter_all {A} (p : A -> bool) (l : list A) :
  (forall x, x ∈ l -> p x = true) -> List.filter p l = l.
Proof.
  induction l as [|x l IH]; intros Hp; [reflexivity|].
  simpl. rewrite Hp by left. f_equal. apply IH. intros y Hy. apply Hp. by right.
Qed.

Lemma elem_of_filter_bool {A} (p : A -> bool) (l : list A) (x : A) :
  x ∈ List.filter p l <-> x ∈ l /\ p x = true.
Proof. rewrite !list_elem_of_In. apply filter_In. Qed.

Lemma filter_filter_bool {A} (p q : A -> bool) (l : list A) :
  List.filter p (List.filter q l) = List.filter (fun x => q x && p x) l.
Proof.
  induction l as [|x l IH]; [reflexivity|].
  simpl. destruct (q x); simpl; [destruct (p x)|]; by rewrite IH.
Qed.

Lemma filter_ext_in_bool {A} (p q : A -> bool) (l : list A) :
  (forall x, x ∈ l -> p x = q x) -> List.filter p l = List.filter q l.
Proof.
  intros H. apply filter_ext_in. intros x Hx. apply H. by apply list_elem_of_In.
Qed.

Lemma in_range_ok (lo hi : Qc) (v : value) :
  is_str v = false -> in_range lo hi v = Ok (in_range_b lo hi v).
Proof. by destruct v. Qed.

Lemma in_range_inv (lo hi : Qc) (v : value) (b : bool) :
  in_range lo hi v = Ok b -> is_str v = false /\ b = in_range_b lo hi v.
Proof. destruct v; simpl; intros [= <-]||intros [=]; done. Qed.

Lemma in_range_b_spec (lo hi : Qc) (v : value) :
  in_range_b lo hi v = true <->
  exists g, num_of v = Some g /\ (lo <= g)%Qc /\ (g <= hi)%Qc.
Proof.
  unfold in_range_b, Qc_leb. destruct (num_of v) as [g|]; split.
  - intros [H1 H2]%andb_prop.
    apply bool_decide_eq_true in H1, H2. by exists g.
  - intros (g' & [= <-] & H1 & H2).
    apply andb_true_intro. by rewrite !bool_decide_eq_true.
  - done.
  - by intros (g & [=] & _).
Qed.

(** A filter whose test never raises is the plain filter; one whose test
    raises on some element raises. *)
Lemma filter_result_ok {A} (p : A -> result bool) (q : A -> bool) (l : list A) :
  (forall x, x ∈ l -> p x = Ok (q x)) ->
  filter_result p l = Ok (List.filter q l).
Proof.
  induction l as [|x l IH]; intros Hp; [reflexivity|].
  simpl. rewrite Hp by left. simpl.
  rewrite IH by (intros y Hy; apply Hp; by right). simpl.
  by destruct (q x).
Qed.

Lemma filter_result_inv {A} (p : A -> result bool) (l l' : list A) :
  filter_result p l = Ok l' -> forall x, x ∈ l -> exists b, p x = Ok b.
Proof.
  revert l'; induction l as [|x l IH]; intros l' Hl y Hy.
  - by apply elem_of_nil in Hy.
  - simpl in Hl. destruct (p x) as [b|] eqn:Hpx; [|discriminate].
    simpl in Hl. destruct (filter_result p l) as [ys|] eqn:Hys; [|discriminate].
    apply elem_of_cons in Hy as [->|Hy]; [by exists b | by eapply IH].
Qed.

(** ** Masking comes first *)

Section MaskingBlock.

Variable float_repr : Qc -> string.

Lemma returned_ok {A} (d : A) (r : result A) :
  (exists a, r = Ok a) -> r = Ok (returned d r).
Proof. by intros [a ->]. Qed.

Lemma apply_column_eq (c : string) (f : value -> result value) (df : DataFrame) :
  (forall v, exists w, f v = Ok w) ->
  apply_column c f df
  = Ok (mkDF (columns df)
          (map (fun r => <[c := returned VNaN (f (cell r c))]> r) (rows df))).
Proof.
  intros Hf. unfold apply_column.
  rewrite (map_result_ok _ (fun r => <[c := returned VNaN (f (cell r c))]> r)).
  - reflexivity.
  - intros r. rewrite (returned_ok VNaN (f (cell r c))) at 1 by apply Hf.
    reflexivity.
Qed.

Lemma mask_step_eq (c : string) (f : value -> result value) (df : DataFrame)
    (cols : list string) :
  (forall v, exists w, f v = Ok w) ->
  columns df = cols ->
  (if has_column df c then apply_column c f df else Ok df)
  = Ok (mkDF cols (map (mask_cell c f cols) (rows df))).
Proof.
  intros Hf <-. unfold has_column, mask_cell.
  destruct (bool_decide (c ∈ columns df)).
  - by apply apply_column_eq.
  - rewrite map_id. by destruct df.
Qed.

Lemma mask_cell_in (c : string) (f : value -> result value)
    (cols : list string) (r : gmap string value) :
  c ∈ cols -> mask_cell c f cols r = <[c := returned VNaN (f (cell r c))]> r.
Proof. intros Hc. unfold mask_cell. by rewrite bool_decide_eq_true_2. Qed.

(** The masking block never raises, and masks row by row. *)
Lemma df_masked_eq (df : DataFrame) :
  df_masked float_repr df
  = Ok (mkDF (columns df) (map (mask_row float_repr (columns df)) (rows df))).
Proof.
  unfold df_masked.
  rewrite (mask_step_eq "Nama Lengkap" _ df (columns df))
    by auto using mask_name_total.
  cbn [mbind result_bind].
  rewrite (mask_step_eq "NPM" _ _ (columns df))
    by auto using mask_npm_total.
  cbn [mbind result_bind rows].
  unfold mask_row.
  destruct (has_column _ "Nomor Whatsapp") eqn:Hw.
  - apply has_column_true in Hw. cbn [columns] in Hw.
    rewrite !(bool_decide_eq_true_2 _ Hw).
    rewrite apply_column_eq by apply mask_phone_total.
    cbn [columns rows]. rewrite !map_map. f_equal. f_equal.
    apply map_ext. intros r.
    by rewrite (mask_cell_in "Nomor Whatsapp") by done.
  - apply has_column_false in Hw. cbn [columns] in Hw.
    rewrite !(bool_decide_eq_false_2 _ Hw).
    rewrite (mask_step_eq "Nomor Telepon" _ _ (columns df))
      by auto using mask_phone_total.
    cbn [rows]. by rewrite !map_map.
Qed.




End MaskingBlock.

(** ** The filter block *)

Lemma text_filters_eq (df : DataFrame) (fo so : list value) (sel : Selection) :
  rows (if truthy so
        then select_rows (fun r => isin (cell r "Semester") (semester sel))
               (if truthy fo
                then select_rows
                       (fun r => isin (cell r "Fakultas") (fakultas sel)) df
                else df)
        else (if truthy fo
              then select_rows
                     (fun r => isin (cell r "Fakultas") (fakultas sel)) df
              else df))
  = List.filter (keep_row_text fo so sel) (rows df)
  /\ columns (if truthy so
        then select_rows (fun r => isin (cell r "Semester") (semester sel))
               (if truthy fo
                then select_rows
                       (fun r => isin (cell r "Fakultas") (fakultas sel)) df
                else df)
        else (if truthy fo
              then select_rows
                     (fun r => isin (cell r "Fakultas") (fakultas sel)) df
              else df))
    = columns df.
Proof.
  unfold keep_row_text.
  destruct (truthy fo), (truthy so); cbn [select_rows rows columns];
    split; try reflexivity.
  - by rewrite filter_filter_bool.
  - apply filter_ext_in_bool. intros r _. by rewrite andb_true_r.
  - symmetry. by apply filter_all.
Qed.

(** A run of the filter block that returns yields the rows that pass
    [keep_row], in table order; the IPK comparison was made on cells that
    are not text. *)
Lemma df_filtered_inv (df t : DataFrame) (sel : Selection) :
  df_filtered df sel = Ok t ->
  exists fo so,
    fakultas_options df = Ok fo /\ semester_options df = Ok so
    /\ columns t = columns df
    /\ rows t = List.filter (keep_row fo so (has_column df "IPK") sel) (rows df)
    /\ (has_column df "IPK" = true ->
        forall r, r ∈ List.filter (keep_row_text fo so sel) (rows df) ->
                  is_str (cell r "IPK") = false).
Proof.
  unfold df_filtered. intros H.
  destruct (fakultas_options df) as [fo|] eqn:Hfo; [|discriminate].
  destruct (semester_options df) as [so|] eqn:Hso; [|discriminate].
  cbn [mbind result_bind] in H.
  destruct (text_filters_eq df fo so sel) as [Hrows Hcols].
  exists fo, so. split; [done|]. split; [done|].
  destruct (has_column df "IPK") eqn:Hipk.
  - rewrite Hrows, Hcols in H.
    destruct (filter_result _ _) as [rs|] eqn:Hrs; [|discriminate].
    injection H as <-. cbn [columns rows].
    assert (Hns : forall r, r ∈ List.filter (keep_row_text fo so sel) (rows df) ->
                            is_str (cell r "IPK") = false).
    { intros r Hr. destruct (filter_result_inv _ _ _ Hrs r Hr) as [b Hb].
      by apply in_range_inv in Hb as [? _]. }
    split; [done|]. split; [|by intros _].
    rewrite (filter_result_ok _
               (fun r => in_range_b (ipk_min sel) (ipk_max sel) (cell r "IPK")))
      in Hrs by (intros r Hr; apply in_range_ok; by apply Hns).
    injection Hrs as <-. rewrite filter_filter_bool. reflexivity.
  - injection H as <-. rewrite Hcols, Hrows.
    split; [done|]. split; [|done].
    apply filter_ext_in_bool. intros r _.
    unfold keep_row, keep_row_text. by rewrite andb_true_r.
Qed.

(** The filter block returns when both option lists could be sorted and no
    row that reaches the IPK comparison holds text there. *)
Lemma df_filtered_ok (df : DataFrame) (sel : Selection) (fo so : list value) :
  fakultas_options df = Ok fo ->
  semester_options df = Ok so ->
  (has_column df "IPK" = true ->
   forall r, r ∈ List.filter (keep_row_text fo so sel) (rows df) ->
             is_str (cell r "IPK") = false) ->
  df_filtered df sel
  = Ok (mkDF (columns df)
          (List.filter (keep_row fo so (has_column df "IPK") sel) (rows df))).
Proof.
  intros Hfo Hso Hns. unfold df_filtered. rewrite Hfo, Hso.
  cbn [mbind result_bind].
  destruct (text_filters_eq df fo so sel) as [Hrows Hcols].
  rewrite Hrows, Hcols.
  destruct (has_column df "IPK") eqn:Hipk.
  - rewrite (filter_result_ok _
               (fun r => in_range_b (ipk_min sel) (ipk_max sel) (cell r "IPK")))
      by (intros r Hr; apply in_range_ok; by apply Hns).
    cbn [mbind result_bind]. rewrite filter_filter_bool. reflexivity.
  - f_equal.
    destruct (if truthy so then _ else _) as [cs rs]; cbn [columns rows] in *.
    subst. f_equal.
    apply filter_ext_in_bool. intros r _.
    unfold keep_row, keep_row_text. by rewrite andb_true_r.
Qed.

Lemma df_filtered_rows (df t : DataFrame) (sel : Selection) (r : gmap string value) :
  df_filtered df sel = Ok t -> r ∈ rows t -> r ∈ rows df.
Proof.
  intros (fo & so & _ & _ & _ & -> & _)%df_filtered_inv.
  by intros [? _]%elem_of_filter_bool.
Qed.

(** ** What the page shows *)






(** ** Equality, distinct values and sorting *)

Lemma py_eqb_key (a b : value) : py_eqb a b = true <-> key a = key b.
Proof.
  destruct a, b; simpl; unfold Qc_eqb;
    rewrite ?String.eqb_eq, ?bool_decide_eq_true;
    split; intros H; try done; try congruence.
Qed.

Lemma py_eqb_refl (a : value) : py_eqb a a = true.
Proof. by apply py_eqb_key. Qed.

Lemma py_eqb_sym (a b : value) : py_eqb a b = py_eqb b a.
Proof.
  destruct (py_eqb b a) eqn:H.
  - apply py_eqb_key. symmetry. by apply py_eqb_key.
  - destruct (py_eqb a b) eqn:H'; [|done].
    apply py_eqb_key in H'. symmetry in H'. apply py_eqb_key in H'. congruence.
Qed.

Lemma py_eqb_trans_l (a b c : value) :
  py_eqb a b = true -> py_eqb a c = py_eqb b c.
Proof.
  intros Hab%py_eqb_key.
  destruct (py_eqb b c) eqn:H.
  - apply py_eqb_key. apply py_eqb_key in H. congruence.
  - destruct (py_eqb a c) eqn:H'; [|done].
    apply py_eqb_key in H'. rewrite Hab in H'. apply py_eqb_key in H'.
    congruence.
Qed.

Lemma py_eqb_isna (a b : value) : py_eqb a b = true -> isna a = isna b.
Proof. intros H%py_eqb_key. by destruct a, b. Qed.

Lemma py_eqb_kind (a b : value) : py_eqb a b = true -> kind a = kind b.
Proof. intros H%py_eqb_key. by destruct a, b. Qed.

Lemma kind_not_na (v : value) : isna v = false -> exists k, kind v = Some k.
Proof. destruct v; try done; eauto. Qed.

Lemma py_ltb_same_kind (a b : value) (k : bool) :
  kind a = Some k -> kind b = Some k -> exists c, py_ltb a b = Ok c.
Proof. destruct a, b; simpl; intros [= <-] [=]; eauto. Qed.

Lemma py_ltb_ok_kind (a b : value) (c : bool) :
  py_ltb a b = Ok c -> kind a = kind b.
Proof. destruct a, b; simpl; intros [=]; done. Qed.

Lemma elem_of_dropna (v : value) (l : list value) :
  v ∈ dropna l <-> v ∈ l /\ isna v = false.
Proof.
  unfold dropna. rewrite elem_of_filter_bool.
  by rewrite negb_true_iff.
Qed.

Lemma unique_subset (l : list value) (x : value) : x ∈ unique l -> x ∈ l.
Proof.
  induction l as [|y l IH]; [done|]. simpl.
  intros [->|Hx]%elem_of_cons; [left|].
  apply elem_of_filter_bool in Hx as [Hx _]. right. by apply IH.
Qed.

Lemma unique_covers (l : list value) (x : value) :
  x ∈ l -> exists u, u ∈ unique l /\ py_eqb u x = true.
Proof.
  induction l as [|y l IH]; intros Hx; [by apply elem_of_nil in Hx|].
  simpl. apply elem_of_cons in Hx as [->|Hx].
  - exists y. split; [left | apply py_eqb_refl].
  - destruct (IH Hx) as (u & Hu & Hux).
    destruct (py_eqb y u) eqn:Hyu.
    + exists y. split; [left|]. by rewrite (py_eqb_trans_l y u x).
    + exists u. split; [|done]. right.
      apply elem_of_filter_bool. by rewrite Hyu.
Qed.

Lemma unique_nil (l : list value) : unique l = [] <-> l = [].
Proof. destruct l; simpl; split; done. Qed.

Lemma insert_sorted_perm (x : value) (l s : list value) :
  insert_sorted x l = Ok s -> s ≡ₚ x :: l.
Proof.
  revert s; induction l as [|y l IH]; intros s; simpl.
  - by intros [= <-].
  - destruct (py_ltb y x) as [[]|]; simpl; [| by intros [= <-] | done].
    destruct (insert_sorted x l) as [r|]; simpl; [|done].
    intros [= <-]. rewrite (IH r eq_refl). apply perm_swap.
Qed.

Lemma py_sorted_perm (l s : list value) : py_sorted l = Ok s -> s ≡ₚ l.
Proof.
  revert s; induction l as [|x l IH]; intros s; simpl.
  - by intros [= <-].
  - destruct (py_sorted l) as [s'|]; simpl; [|done].
    intros H%insert_sorted_perm. rewrite H. by rewrite (IH s' eq_refl).
Qed.

Lemma insert_sorted_total (x : value) (l : list value) (k : bool) :
  kind x = Some k -> Forall (fun y => kind y = Some k) l ->
  exists s, insert_sorted x l = Ok s.
Proof.
  intros Hx. induction l as [|y l IH]; intros Hl; simpl; [eauto|].
  apply Forall_cons in Hl as [Hy Hl].
  destruct (py_ltb_same_kind y x k Hy Hx) as [c ->]. simpl.
  destruct c; [|eauto].
  destruct (IH Hl) as [r ->]. simpl. eauto.
Qed.

(** [sorted] returns on a list of one kind. *)
Lemma py_sorted_total (l : list value) :
  same_kind l -> exists s, py_sorted l = Ok s.
Proof.
  intros [k Hl]. induction l as [|x l IH]; simpl; [eauto|].
  apply Forall_cons in Hl as [Hx Hl].
  destruct (IH Hl) as [s Hs]. rewrite Hs. simpl.
  apply (insert_sorted_total x s k Hx).
  apply py_sorted_perm in Hs. by rewrite Hs.
Qed.

(** [sorted] returns only on a list of one kind, once the missing values
    are gone. *)
Lemma py_sorted_same_kind (l s : list value) :
  py_sorted l = Ok s -> Forall (fun x => isna x = false) l -> same_kind l.
Proof.
  revert s; induction l as [|x l IH]; intros s Hs Hna.
  - exists true. constructor.
  - apply Forall_cons in Hna as [Hx Hna].
    simpl in Hs. destruct (py_sorted l) as [s'|] eqn:Hs'; [|done].
    simpl in Hs. destruct (IH s' eq_refl Hna) as [k Hk].
    destruct (kind_not_na x Hx) as [kx Hkx].
    destruct s' as [|y s'].
    + apply py_sorted_perm in Hs'. apply Permutation_nil_l in Hs' as <-.
      exists kx. by repeat constructor.
    + simpl in Hs. destruct (py_ltb y x) as [c|] eqn:Hyx; [|done].
      apply py_ltb_ok_kind in Hyx.
      assert (Hy : kind y = Some k).
      { apply py_sorted_perm in Hs'.
        rewrite <- Hs' in Hk. by apply Forall_cons in Hk as [? _]. }
      exists k. constructor; [congruence | done].
Qed.

Lemma same_kind_unique (l : list value) : same_kind (unique l) <-> same_kind l.
Proof.
  split; intros [k Hk]; exists k; apply Forall_forall.
  - intros x Hx. destruct (unique_covers l x Hx) as (u & Hu & Hux).
    rewrite <- (py_eqb_kind u x Hux).
    by apply (proj1 (Forall_forall _ _) Hk).
  - intros x Hx%unique_subset. by apply (proj1 (Forall_forall _ _) Hk).
Qed.

Lemma same_kind_subset (l l' : list value) :
  (forall x, x ∈ l' -> x ∈ l) -> same_kind l -> same_kind l'.
Proof.
  intros Hsub [k Hk]. exists k. apply Forall_forall. intros x Hx.
  apply (proj1 (Forall_forall _ _) Hk). by apply Hsub.
Qed.

(** ** The option lists *)

Lemma column_options_inv (df : DataFrame) (c : string) (fo : list value) :
  column_options df c = Ok fo ->
  (has_column df c = true /\ fo ≡ₚ unique (dropna (series df c)))
  \/ (has_column df c = false /\ fo = []).
Proof.
  unfold column_options. destruct (has_column df c).
  - intros H%py_sorted_perm. by left.
  - intros [= <-]. by right.
Qed.

Lemma elem_of_series (df : DataFrame) (c : string) (v : value) :
  v ∈ series df c <-> exists r, r ∈ rows df /\ v = cell r c.
Proof.
  unfold series. rewrite list_elem_of_fmap.
  split; intros (r & H1 & H2); exists r; done.
Qed.

Lemma isin_true (v : value) (l : list value) :
  isin v l = true <-> exists u, u ∈ l /\ py_eqb v u = true.
Proof.
  unfold isin. rewrite existsb_exists.
  split; intros (u & Hu & Hvu); exists u; by rewrite ?list_elem_of_In in *.
Qed.

(** Every value of the column that is not missing is among its options. *)
Lemma isin_options (df : DataFrame) (c : string) (fo : list value)
    (r : gmap string value) :
  column_options df c = Ok fo -> has_column df c = true ->
  r ∈ rows df -> isna (cell r c) = false -> isin (cell r c) fo = true.
Proof.
  intros [[_ Hfo]|[Hc _]]%column_options_inv Hcol Hr Hna; [|congruence].
  destruct (unique_covers (dropna (series df c)) (cell r c)) as (u & Hu & Hux).
  { apply elem_of_dropna. split; [|done]. apply elem_of_series. eauto. }
  apply isin_true. exists u. split; [by rewrite Hfo|].
  by rewrite py_eqb_sym.
Qed.

(** A missing value is never among the options. *)
Lemma isin_options_na (df : DataFrame) (c : string) (fo : list value)
    (v : value) :
  column_options df c = Ok fo -> isna v = true -> isin v fo = false.
Proof.
  intros Hfo Hna. destruct (isin v fo) eqn:Hin; [|done].
  apply isin_true in Hin as (u & Hu & Hvu).
  apply py_eqb_isna in Hvu.
  apply column_options_inv in Hfo as [[_ Hfo]|[_ ->]];
    [|by apply elem_of_nil in Hu].
  rewrite Hfo in Hu. apply unique_subset, elem_of_dropna in Hu as [_ Hu].
  congruence.
Qed.

Lemma truthy_perm {A} (l l' : list A) : l ≡ₚ l' -> truthy l = truthy l'.
Proof.
  intros H. destruct l, l'; try done.
  - by apply Permutation_nil_cons in H.
  - symmetry in H. by apply Permutation_nil_cons in H.
Qed.

Lemma truthy_unique (l : list value) : truthy (unique l) = truthy l.
Proof. by destruct l. Qed.

(** The filter on a column is switched on exactly when the column has
    values. *)
Lemma truthy_options (df : DataFrame) (c : string) (fo : list value) :
  column_options df c = Ok fo -> truthy fo = has_values df c.
Proof.
  unfold has_values.
  intros [[-> Hfo]|[-> ->]]%column_options_inv; [|done].
  by rewrite (truthy_perm _ _ Hfo), truthy_unique.
Qed.

Lemma one_kind_same_kind (l : list value) : one_kind l = true <-> same_kind l.
Proof.
  unfold one_kind, same_kind. rewrite orb_true_iff, !forallb_forall.
  setoid_rewrite bool_decide_eq_true. setoid_rewrite Forall_forall.
  setoid_rewrite list_elem_of_In.
  split.
  - intros [H|H]; eauto.
  - intros [[] H]; eauto.
Qed.

Lemma column_options_total (df : DataFrame) (c : string) :
  same_kind (dropna (series df c)) -> exists fo, column_options df c = Ok fo.
Proof.
  intros H. unfold column_options. destruct (has_column df c); [|eauto].
  by apply py_sorted_total, same_kind_unique.
Qed.

Lemma column_options_same_kind (df : DataFrame) (c : string) (fo : list value) :
  column_options df c = Ok fo -> has_column df c = true ->
  same_kind (dropna (series df c)).
Proof.
  intros H Hc. unfold column_options in H. rewrite Hc in H.
  apply same_kind_unique.
  apply (py_sorted_same_kind _ _ H), Forall_forall.
  by intros x [_ Hx]%unique_subset%elem_of_dropna.
Qed.

Lemma well_typed_inv (df : DataFrame) :
  well_typed df = true ->
  (exists fo, fakultas_options df = Ok fo)
  /\ (exists so, semester_options df = Ok so)
  /\ forall r, r ∈ rows df -> is_str (cell r "IPK") = false.
Proof.
  unfold well_typed. rewrite !andb_true_iff, !one_kind_same_kind.
  intros [[Hf Hs] Hi].
  split; [by apply column_options_total|].
  split; [by apply column_options_total|].
  intros r Hr. rewrite forallb_forall in Hi.
  apply negb_true_iff, Hi, list_elem_of_In, elem_of_series. eauto.
Qed.

(** The filter block returns on a well-typed table. *)
Lemma df_filtered_total (df : DataFrame) (sel : Selection) :
  well_typed df = true ->
  exists fo so,
    fakultas_options df = Ok fo /\ semester_options df = Ok so
    /\ df_filtered df sel
       = Ok (mkDF (columns df)
               (List.filter (keep_row fo so (has_column df "IPK") sel) (rows df))).
Proof.
  intros ([fo Hfo] & [so Hso] & Hi)%well_typed_inv.
  exists fo, so. split; [done|]. split; [done|].
  apply df_filtered_ok; [done..|].
  intros _ r [Hr _]%elem_of_filter_bool. by apply Hi.
Qed.

(** ** Filtering is a conjunction *)




(** C6 (as stated) fails on a table whose faculty column holds no value:
    the faculty list of the sidebar is empty, the faculty test is skipped,
    and both rows are kept although neither has its faculty among the
    selected ones. *)
Lemma unselected_faculty_kept :
  exists t,
    df_filtered Sample.no_faculty Sample.no_faculty_sel = Ok t
    /\ fakultas_options Sample.no_faculty = Ok (fakultas Sample.no_faculty_sel)
    /\ rows t = rows Sample.no_faculty
    /\ List.filter (selected Sample.no_faculty_sel) (rows t) = [].
Proof. eexists. repeat split; vm_compute; reflexivity. Qed.

(** ** Filtering twice *)

Lemma truthy_elem {A} (l : list A) : truthy l = true <-> exists x, x ∈ l.
Proof.
  destruct l as [|x l]; simpl; split; try done.
  - intros [x Hx]. by apply elem_of_nil in Hx.
  - intros _. exists x. left.
Qed.

Lemma series_subset (df t : DataFrame) (c : string) (v : value) :
  (forall r, r ∈ rows t -> r ∈ rows df) ->
  v ∈ dropna (series t c) -> v ∈ dropna (series df c).
Proof.
  intros Hsub [(r & Hr & ->)%elem_of_series Hna]%elem_of_dropna.
  apply elem_of_dropna. split; [|done]. apply elem_of_series. eauto.
Qed.

(** The options of a table made of rows of [df]: the list can be sorted if
    that of [df] can, and it is empty if that of [df] is. *)
Lemma column_options_sub (df t : DataFrame) (c : string) (fo : list value) :
  column_options df c = Ok fo ->
  columns t = columns df ->
  (forall r, r ∈ rows t -> r ∈ rows df) ->
  exists fo', column_options t c = Ok fo'
              /\ (truthy fo' = true -> truthy fo = true).
Proof.
  intros Hfo Hcols Hsub.
  assert (Hc : has_column t c = has_column df c)
    by (unfold has_column; by rewrite Hcols).
  destruct (has_column df c) eqn:Hdf.
  - destruct (column_options_total t c) as [fo' Hfo'].
    { apply (same_kind_subset (dropna (series df c)));
        [intros v; by apply series_subset|].
      by apply (column_options_same_kind df c fo). }
    exists fo'. split; [done|].
    rewrite (truthy_options _ _ _ Hfo'), (truthy_options _ _ _ Hfo).
    unfold has_values. rewrite Hc, Hdf. simpl.
    rewrite !truthy_elem. intros [v Hv]. exists v. by apply (series_subset df t).
  - exists []. unfold column_options. rewrite Hc. split; [done | discriminate].
Qed.

(** C7: filtering the filtered table again, with the same selection, returns
    it unchanged. *)
Theorem df_filtered_idempotent (df t : DataFrame) (sel : Selection) :
  df_filtered df sel = Ok t -> df_filtered t sel = Ok t.
Proof.
  intros H.
  destruct (df_filtered_inv _ _ _ H) as (fo & so & Hfo & Hso & Hcols & Hrows & _).
  assert (Hsub : forall r, r ∈ rows t -> r ∈ rows df)
    by (intros r; by apply df_filtered_rows with sel).
  destruct (column_options_sub df t "Fakultas" fo Hfo Hcols Hsub)
    as (fo' & Hfo' & Htf).
  destruct (column_options_sub df t "Semester" so Hso Hcols Hsub)
    as (so' & Hso' & Hts).
  assert (Hipk : has_column t "IPK" = has_column df "IPK")
    by (unfold has_column; by rewrite Hcols).
  assert (Hkeep : forall r, r ∈ rows t ->
            keep_row fo' so' (has_column t "IPK") sel r = true).
  { intros r Hr. rewrite Hrows in Hr.
    apply elem_of_filter_bool in Hr as [_ Hr].
    rewrite Hipk. unfold keep_row in *.
    apply andb_prop in Hr as [[Hr1 Hr2]%andb_prop Hr3].
    rewrite Hr3, andb_true_r. apply andb_true_intro. split.
    - destruct (truthy fo') eqn:E; [|done]. by rewrite (Htf eq_refl) in Hr1.
    - destruct (truthy so') eqn:E; [|done]. by rewrite (Hts eq_refl) in Hr2. }
  rewrite (df_filtered_ok t sel fo' so' Hfo' Hso').
  - rewrite (filter_all _ _ Hkeep). by destruct t.
  - intros Hi r [Hr _]%elem_of_filter_bool.
    specialize (Hkeep r Hr). rewrite Hi in Hkeep. unfold keep_row in Hkeep.
    apply andb_prop in Hkeep as [_ Hk].
    apply in_range_b_spec in Hk as (g & Hg & _).
    by destruct (cell r "IPK").
Qed.

(** Filtering the scenario table twice gives the four rows again. *)
Lemma df_filtered_idempotent_witness :
  df_filtered Sample.scenario_result Sample.scenario_sel
  = Ok Sample.scenario_result.
Proof.
  apply (df_filtered_idempotent Sample.scenario).
  vm_compute. reflexivity.
Defined.

(** ** The untouched sidebar *)

Lemma Qc_leb_true (a b : Qc) : Qc_leb a b = true <-> (a <= b)%Qc.
Proof. unfold Qc_leb. apply bool_decide_eq_true. Qed.

Lemma Qc_leb_false (a b : Qc) : Qc_leb a b = false -> (b <= a)%Qc.
Proof.
  unfold Qc_leb. intros H%bool_decide_eq_false.
  apply Qclt_le_weak. by apply Qcnot_le_lt.
Qed.

Lemma series_min_none (l : list value) :
  series_min l = None -> Forall (fun v => num_of v = None) l.
Proof.
  induction l as [|x l IH]; [constructor|]. simpl.
  destruct (num_of x) as [q|] eqn:Hx.
  - destruct (series_min l); discriminate.
  - intros H. constructor; [done | by apply IH].
Qed.

Lemma series_max_none (l : list value) :
  series_max l = None -> Forall (fun v => num_of v = None) l.
Proof.
  induction l as [|x l IH]; [constructor|]. simpl.
  destruct (num_of x) as [q|] eqn:Hx.
  - destruct (series_max l); discriminate.
  - intros H. constructor; [done | by apply IH].
Qed.

(** [s.min()] is below every number of the column. *)
Lemma series_min_le (l : list value) (m : Qc) :
  series_min l = Some m ->
  Forall (fun v => forall g, num_of v = Some g -> (m <= g)%Qc) l.
Proof.
  revert m; induction l as [|x l IH]; intros m; [constructor|]. simpl.
  destruct (num_of x) as [q|] eqn:Hx.
  - destruct (series_min l) as [m'|] eqn:Hl.
    + intros [= <-]. specialize (IH m' eq_refl).
      destruct (Qc_leb q m') eqn:Hq.
      * apply Qc_leb_true in Hq. constructor.
        { intros g; rewrite Hx; intros [= <-]. apply Qcle_refl. }
        eapply Forall_impl; [exact IH|]. simpl. intros v Hv g Hg.
        eapply Qcle_trans; [exact Hq | by apply Hv].
      * apply Qc_leb_false in Hq. constructor; [|exact IH].
        intros g; rewrite Hx; by intros [= <-].
    + intros [= <-]. constructor.
      { intros g; rewrite Hx; intros [= <-]. apply Qcle_refl. }
      eapply Forall_impl; [by apply series_min_none|].
      simpl. intros v Hv g Hg. congruence.
  - intros Hm. constructor; [intros g; by rewrite Hx | by apply IH].
Qed.

(** [s.max()] is above every number of the column. *)
Lemma series_max_ge (l : list value) (m : Qc) :
  series_max l = Some m ->
  Forall (fun v => forall g, num_of v = Some g -> (g <= m)%Qc) l.
Proof.
  revert m; induction l as [|x l IH]; intros m; [constructor|]. simpl.
  destruct (num_of x) as [q|] eqn:Hx.
  - destruct (series_max l) as [m'|] eqn:Hl.
    + intros [= <-]. specialize (IH m' eq_refl).
      destruct (Qc_leb m' q) eqn:Hq.
      * apply Qc_leb_true in Hq. constructor.
        { intros g; rewrite Hx; intros [= <-]. apply Qcle_refl. }
        eapply Forall_impl; [exact IH|]. simpl. intros v Hv g Hg.
        eapply Qcle_trans; [by apply Hv | exact Hq].
      * apply Qc_leb_false in Hq. constructor; [|exact IH].
        intros g; rewrite Hx; by intros [= <-].
    + intros [= <-]. constructor.
      { intros g; rewrite Hx; intros [= <-]. apply Qcle_refl. }
      eapply Forall_impl; [by apply series_max_none|].
      simpl. intros v Hv g Hg. congruence.
  - intros Hm. constructor; [intros g; by rewrite Hx | by apply IH].
Qed.

Lemma forallb_series (p : value -> bool) (df : DataFrame) (c : string)
    (r : gmap string value) :
  forallb p (series df c) = true -> r ∈ rows df -> p (cell r c) = true.
Proof.
  rewrite forallb_forall. intros H Hr.
  apply H, list_elem_of_In, elem_of_series. eauto.
Qed.

(** The slider left at its full range keeps every number of the column. *)
Lemma full_range_keeps (df : DataFrame) (lo hi : Qc) (r : gmap string value) :
  series_min (series df "IPK") = Some lo ->
  series_max (series df "IPK") = Some hi ->
  all_numbers df "IPK" = true ->
  r ∈ rows df -> in_range_b lo hi (cell r "IPK") = true.
Proof.
  intros Hlo Hhi Hnum Hr.
  pose proof (forallb_series _ _ _ _ Hnum Hr) as Hg.
  apply bool_decide_eq_true in Hg as [g Hg].
  apply in_range_b_spec. exists g. split; [done|].
  assert (Hin : cell r "IPK" ∈ series df "IPK")
    by (apply elem_of_series; eauto).
  split.
  - by apply (proj1 (Forall_forall _ _) (series_min_le _ _ Hlo) _ Hin).
  - by apply (proj1 (Forall_forall _ _) (series_max_ge _ _ Hhi) _ Hin).
Qed.

(** C4 (as amended): a filter dimension changes nothing when its column is
    not in the table, or when the selection is the full list of options
    (for the IPK, the range from the least to the greatest value) and no
    cell of the column is missing (for the IPK, every cell is a number).
    When this holds of the three dimensions the filtered table is the
    table. *)
Theorem filter_default_noop (df : DataFrame) (sel : Selection)
    (fo so : list value) :
  fakultas_options df = Ok fo ->
  semester_options df = Ok so ->
  has_column df "Fakultas" = false
  \/ (fakultas sel = fo /\ no_missing df "Fakultas" = true) ->
  has_column df "Semester" = false
  \/ (semester sel = so /\ no_missing df "Semester" = true) ->
  has_column df "IPK" = false
  \/ (series_min (series df "IPK") = Some (ipk_min sel)
      /\ series_max (series df "IPK") = Some (ipk_max sel)
      /\ all_numbers df "IPK" = true) ->
  df_filtered df sel = Ok df.
Proof.
  intros Hfo Hso Hf Hs Hi.
  rewrite (df_filtered_ok df sel fo so Hfo Hso).
  - rewrite filter_all; [by destruct df|].
    intros r Hr. unfold keep_row.
    repeat (apply andb_true_intro; split).
    + rewrite (truthy_options _ _ _ Hfo). unfold has_values.
      destruct Hf as [->|[-> Hnm]]; [done|].
      destruct (has_column df "Fakultas") eqn:Hc; [|done].
      destruct (truthy _); [|done].
      apply (isin_options df "Fakultas" fo r Hfo Hc Hr).
      apply negb_true_iff. by apply (forallb_series _ _ _ _ Hnm).
    + rewrite (truthy_options _ _ _ Hso). unfold has_values.
      destruct Hs as [->|[-> Hnm]]; [done|].
      destruct (has_column df "Semester") eqn:Hc; [|done].
      destruct (truthy _); [|done].
      apply (isin_options df "Semester" so r Hso Hc Hr).
      apply negb_true_iff. by apply (forallb_series _ _ _ _ Hnm).
    + destruct Hi as [->|(Hlo & Hhi & Hnum)]; [done|].
      destruct (has_column df "IPK"); [|done].
      by apply (full_range_keeps df).
  - intros Hc r [Hr _]%elem_of_filter_bool.
    destruct Hi as [Hi|(_ & _ & Hnum)]; [congruence|].
    pose proof (forallb_series _ _ _ _ Hnum Hr) as Hg.
    apply bool_decide_eq_true in Hg as [g Hg].
    by destruct (cell r "IPK").
Qed.

(** The sample table under its untouched sidebar is shown whole. *)
Lemma filter_default_noop_witness :
  df_filtered Sample.t1 Sample.t1_default = Ok Sample.t1.
Proof.
  apply (filter_default_noop Sample.t1 Sample.t1_default
           [VStr "Hukum"; VStr "Teknik"] [VInt 3; VInt 5]);
    try (vm_compute; reflexivity);
    right; repeat split; vm_compute; reflexivity.
Defined.

(** C4 (as stated) fails on a table with a missing faculty: the options
    leave the missing value out, so the untouched sidebar drops the row. *)
Lemma default_selection_drops_missing :
  fakultas_options Sample.with_missing = Ok [VStr "Teknik"]
  /\ semester_options Sample.with_missing = Ok []
  /\ has_column Sample.with_missing "IPK" = false
  /\ series Sample.with_missing "Fakultas" = [VStr "Teknik"; VNaN]
  /\ exists t,
       df_filtered Sample.with_missing
         (mkSel [VStr "Teknik"] [] (Sample.q 0 1) (Sample.q 4 1)) = Ok t
       /\ series t "Fakultas" = [VStr "Teknik"].
Proof.
  repeat split; try (vm_compute; reflexivity).
  eexists. split; vm_compute; reflexivity.
Qed.

(** ** Value counts *)

Section SortDesc.

Context {A : Type} (geb : A -> A -> bool).
Hypothesis geb_total : forall a b, geb a b = false -> geb b a = true.
Hypothesis geb_trans : forall a b c, geb a b = true -> geb b c = true -> geb a c = true.

Lemma geb_refl (a : A) : geb a a = true.
Proof.
  destruct (geb a a) eqn:H; [done|].
  pose proof (geb_total a a H) as H'. congruence.
Qed.

Lemma insert_desc_perm (x : value * A) (l : list (value * A)) :
  insert_desc geb x l ≡ₚ x :: l.
Proof.
  induction l as [|y l IH]; simpl; [done|].
  destruct (geb x.2 y.2); [done|]. rewrite IH. apply perm_swap.
Qed.

Lemma sort_desc_perm (l : list (value * A)) : sort_desc geb l ≡ₚ l.
Proof.
  induction l as [|x l IH]; simpl; [done|].
  by rewrite insert_desc_perm, IH.
Qed.

(** The first entry of the sorted list carries a greatest figure. *)
Lemma sort_desc_head (l rest : list (value * A)) (p : value * A) :
  sort_desc geb l = p :: rest ->
  forall p', p' ∈ l -> geb p.2 p'.2 = true.
Proof.
  revert p rest; induction l as [|x l IH]; intros p rest; [done|].
  simpl. destruct (sort_desc geb l) as [|y s] eqn:Hs.
  - pose proof (sort_desc_perm l) as Hp. rewrite Hs in Hp.
    apply Permutation_nil_l in Hp as <-.
    simpl. intros [= <- <-] p' ->%list_elem_of_singleton. apply geb_refl.
  - specialize (IH y s eq_refl). simpl.
    destruct (geb x.2 y.2) eqn:Hxy.
    + intros [= <- <-] p' [->|Hp']%elem_of_cons; [apply geb_refl|].
      eapply geb_trans; [exact Hxy | by apply IH].
    + intros [= <- <-] p' [->|Hp']%elem_of_cons; [by apply geb_total|].
      by apply IH.
Qed.

End SortDesc.

Lemma nat_geb_total (a b : nat) : nat_geb a b = false -> nat_geb b a = true.
Proof. unfold nat_geb. rewrite Nat.leb_gt, Nat.leb_le. lia. Qed.

Lemma nat_geb_trans (a b c : nat) :
  nat_geb a b = true -> nat_geb b c = true -> nat_geb a c = true.
Proof. unfold nat_geb. rewrite !Nat.leb_le. lia. Qed.

Lemma sum_counts_perm (l l' : list (value * nat)) :
  l ≡ₚ l' -> sum_counts l = sum_counts l'.
Proof.
  unfold sum_counts.
  induction 1 as [|x l l' _ IH|x y l|l l' l'' _ IH1 _ IH2]; simpl; lia.
Qed.

Lemma count_of_cons (u x : value) (l : list value) :
  count_of u (x :: l) = (if py_eqb u x then 1 else 0) + count_of u l.
Proof. unfold count_of. simpl. by destruct (py_eqb u x). Qed.

Lemma count_of_eqb (a b : value) (l : list value) :
  py_eqb a b = true -> count_of a l = count_of b l.
Proof.
  intros Hab. unfold count_of. f_equal.
  apply filter_ext. intros y. by apply py_eqb_trans_l.
Qed.

Lemma count_of_pos (u : value) (l : list value) :
  count_of u l <> 0 -> exists y, y ∈ l /\ py_eqb u y = true.
Proof.
  unfold count_of. destruct (List.filter (py_eqb u) l) as [|y f] eqn:Hf; [done|].
  intros _. exists y. apply elem_of_filter_bool. rewrite Hf. left.
Qed.

Lemma filter_false {A} (l : list A) : List.filter (fun _ => false) l = [].
Proof. induction l as [|y l IH]; [reflexivity | exact IH]. Qed.

Lemma filter_split_length (R P : value -> bool) (l : list value) :
  length (List.filter P l)
  = length (List.filter (fun y => R y && P y) l)
    + length (List.filter (fun y => negb (R y) && P y) l).
Proof.
  induction l as [|y l IH]; [reflexivity|].
  simpl. destruct (R y), (P y); simpl; lia.
Qed.

Lemma sum_counts_map_ext (f g : value -> nat) (us : list value) :
  (forall u, u ∈ us -> f u = g u) ->
  sum_counts (map (fun u => (u, f u)) us)
  = sum_counts (map (fun u => (u, g u)) us).
Proof.
  induction us as [|u us IH]; intros H; [reflexivity|].
  simpl. rewrite (H u) by left. rewrite IH; [done|].
  intros v Hv. apply H. by right.
Qed.

(** The counts of the distinct values that pass [P] add up to the number of
    elements that pass [P]: every element is counted once. *)
Lemma counts_partition (l : list value) (P : value -> bool) :
  respects P ->
  sum_counts (map (fun u => (u, count_of u l)) (List.filter P (unique l)))
  = length (List.filter P l).
Proof.
  revert P; induction l as [|x l IH]; intros P HP; [reflexivity|].
  set (Q := fun y => negb (py_eqb x y) && P y).
  assert (HQ : respects Q).
  { intros a b Hab. unfold Q. rewrite (HP a b Hab).
    by rewrite (py_eqb_sym x a), (py_eqb_sym x b), (py_eqb_trans_l a b x Hab). }
  assert (Hrest :
    sum_counts (map (fun u => (u, count_of u (x :: l)))
                  (List.filter P (List.filter (fun y => negb (py_eqb x y)) (unique l))))
    = length (List.filter Q l)).
  { rewrite filter_filter_bool. fold Q. rewrite <- (IH Q HQ).
    apply sum_counts_map_ext. intros u [_ Hu]%elem_of_filter_bool.
    rewrite count_of_cons. unfold Q in Hu.
    apply andb_prop in Hu as [Hu _]. apply negb_true_iff in Hu.
    by rewrite py_eqb_sym, Hu. }
  rewrite (filter_split_length (py_eqb x) P (x :: l)).
  change (List.filter (fun y => negb (py_eqb x y) && P y) (x :: l))
    with (List.filter Q (x :: l)).
  cbn [unique List.filter].
  assert (HQx : Q x = false) by (unfold Q; by rewrite py_eqb_refl).
  rewrite HQx, py_eqb_refl. cbn [andb].
  destruct (P x) eqn:HPx.
  - cbn [map sum_counts foldr snd length]. fold (sum_counts
      (map (fun u => (u, count_of u (x :: l)))
         (List.filter P (List.filter (fun y => negb (py_eqb x y)) (unique l))))).
    rewrite Hrest, count_of_cons, py_eqb_refl.
    unfold count_of. simpl. f_equal. f_equal. f_equal.
    apply filter_ext_in_bool. intros y _.
    destruct (py_eqb x y) eqn:Hxy; [|done].
    by rewrite <- (HP x y Hxy), HPx.
  - rewrite Hrest.
    rewrite (filter_ext_in_bool (fun y => py_eqb x y && P y) (fun _ => false)).
    + by rewrite filter_false.
    + intros y _. destruct (py_eqb x y) eqn:Hxy; [|done].
      by rewrite <- (HP x y Hxy), HPx.
Qed.

Lemma filter_true {A} (l : list A) : List.filter (fun _ => true) l = l.
Proof. apply filter_all. done. Qed.

Lemma value_counts_perm (l : list value) :
  value_counts l
  ≡ₚ map (fun u => (u, count_of u (dropna l))) (unique (dropna l)).
Proof. unfold value_counts. apply sort_desc_perm. Qed.

(** [counts.sum()] is the number of cells that are not missing. *)
Lemma sum_value_counts (l : list value) :
  sum_counts (value_counts l) = length (dropna l).
Proof.
  rewrite (sum_counts_perm _ _ (value_counts_perm l)).
  rewrite <- (filter_true (unique (dropna l))).
  rewrite (counts_partition (dropna l) (fun _ => true)) by done.
  by rewrite filter_true.
Qed.

(** Each entry is a value of the column with its number of occurrences. *)
Lemma elem_of_value_counts (l : list value) (v : value) (n : nat) :
  (v, n) ∈ value_counts l ->
  v ∈ dropna l /\ n = count_of v (dropna l).
Proof.
  rewrite (value_counts_perm l), list_elem_of_fmap.
  intros (u & [= -> ->] & Hu%unique_subset). done.
Qed.

Lemma value_counts_nil (l : list value) :
  value_counts l = [] <-> dropna l = [].
Proof.
  split; intros H.
  - pose proof (value_counts_perm l) as Hp. rewrite H in Hp.
    apply Permutation_nil_l in Hp. symmetry in Hp.
    apply fmap_nil_inv in Hp. by apply unique_nil.
  - unfold value_counts. by rewrite H.
Qed.

(** The first entry of [value_counts] is a most frequent value. *)
Lemma value_counts_head (rest : list (value * nat)) (s : list value)
    (v : value) (n : nat) :
  value_counts s = (v, n) :: rest ->
  forall u, count_of u (dropna s) <= n.
Proof.
  intros Hvc u.
  destruct (decide (count_of u (dropna s) = 0)) as [->|Hpos]; [lia|].
  destruct (count_of_pos _ _ Hpos) as (y & Hy & Huy).
  destruct (unique_covers _ _ Hy) as (w & Hw & Hwy).
  assert (Huw : py_eqb u w = true)
    by (rewrite (py_eqb_trans_l u y w Huy), py_eqb_sym; done).
  rewrite (count_of_eqb u w _ Huw).
  apply Nat.leb_le.
  apply (sort_desc_head nat_geb nat_geb_total nat_geb_trans _ _ (v, n) Hvc
           (w, count_of w (dropna s))).
  apply list_elem_of_fmap. by exists w.
Qed.

(** ** The caption of the most frequent category *)

Lemma dropna_nil (l : list value) :
  dropna l = [] <-> Forall (fun v => isna v = true) l.
Proof.
  unfold dropna. induction l as [|x l IH]; simpl.
  - split; [constructor | done].
  - destruct (isna x) eqn:Hx; simpl.
    + rewrite IH. split; [by constructor | by intros [_ ?]%Forall_cons].
    + split; [done|]. intros [? _]%Forall_cons. congruence.
Qed.

(** C10: [interpret_top_category] never raises.  It returns no caption
    exactly when the series is missing or holds no value that is not null
    (an empty series included); otherwise the caption reports as total the
    number of non-null entries and names a non-null value whose number of
    occurrences, also reported, is not exceeded by any other value. *)
Theorem interpret_top_category_spec (series : option (list value)) :
  exists r,
    interpret_top_category series = Ok r
    /\ (r = None <->
        series = None
        \/ exists l, series = Some l /\ Forall (fun v => isna v = true) l)
    /\ forall c l, r = Some c -> series = Some l ->
         cap_total c = length (dropna l)
         /\ cap_label c ∈ dropna l
         /\ cap_top c = count_of (cap_label c) (dropna l)
         /\ (forall v, count_of v (dropna l) <= cap_top c)
         /\ cap_pct c = percent (cap_top c) (cap_total c).
Proof.
  destruct series as [l|]; [|exists None; split; [done|]; split; [|done]].
  2: { split; [by left | done]. }
  destruct l as [|x l].
  { exists None. split; [done|]. split; [|done].
    split; [|done]. intros _. right. exists []. split; [done | constructor]. }
  set (s := x :: l).
  unfold interpret_top_category. fold s.
  rewrite (sum_value_counts s).
  destruct (length (dropna s) =? 0)%nat eqn:Hlen.
  - apply Nat.eqb_eq in Hlen.
    exists None. split; [done|]. split; [|done].
    split; [|done]. intros _. right. exists s. split; [done|].
    apply dropna_nil. by destruct (dropna s).
  - apply Nat.eqb_neq in Hlen.
    destruct (value_counts s) as [|[v n] rest] eqn:Hvc.
    { apply value_counts_nil in Hvc. by rewrite Hvc in Hlen. }
    assert (Hpct : pct_str n (length (dropna s))
                   = Ok (percent n (length (dropna s))))
      by (unfold pct_str; by destruct (length (dropna s))).
    rewrite Hpct. cbn [mbind result_bind].
    eexists. split; [reflexivity|]. split.
    + split; [done|]. intros [|(l' & [= <-] & Hall)]; [done|].
      apply dropna_nil in Hall. by rewrite Hall in Hlen.
    + intros c l' [= <-] [= <-]. cbn [cap_total cap_label cap_top cap_pct].
      destruct (elem_of_value_counts s v n) as [Hv Hn];
        [rewrite Hvc; left|].
      repeat split; try done.
      intros u. by apply (value_counts_head rest s v n).
Qed.

(** ** The sections that read the unfiltered table *)

Ltac absent_here f He :=
  exfalso; revert He;
  match goal with
  | |- ?e ∈ page ?m -> _ =>
      let H := fresh in
      assert (H : absent f m) by absent_sections;
      intros He; apply H in He; discriminate He
  end.

Lemma df_ikut_ok (df t ikut : DataFrame) :
  df_ikut df t = Ok ikut -> ikut = ikut_rows t.
Proof.
  unfold df_ikut. destruct (str_accessor _ _); simpl; [by intros [= <-] | done].
Qed.

Lemma ya_section_chart (s : section_id) (t : DataFrame) (c : string)
    (d : list (value * Qc)) :
  ShareChart s d ∈ page (ya_section s t c) -> d = ikut_shares t c.
Proof.
  unfold ya_section, ikut_shares.
  destruct (_ && _); [|by intros ?%elem_of_nil].
  intros [He|(ikut & Hi & He)]%elem_of_page_bind;
    [by apply elem_of_nil in He|].
  cbn [lift outcome] in Hi. apply df_ikut_ok in Hi as ->.
  destruct (df_empty _); [by apply elem_of_nil in He|].
  apply elem_of_page_bind in He as [He|(_ & _ & He)].
  { by apply list_elem_of_singleton in He. }
  apply elem_of_page_bind in He as [He|(_ & _ & He)].
  { apply list_elem_of_singleton in He. by injection He. }
  apply elem_of_page_bind in He as [He|(top & _ & He)].
  { by apply elem_of_nil in He. }
  by apply list_elem_of_singleton in He.
Qed.

(** Whatever the selection, the chart of the section "Menunda" shows the
    distribution over the masked table, not over the filtered one. *)
Lemma menunda_chart_source (float_repr : Qc -> string) (loaded : DataFrame)
    (sel : Selection) (show_table : bool) (d : list (value * Qc)) :
  ShareChart Menunda d ∈ page (dashboard float_repr loaded sel show_table) ->
  exists df,
    df_masked float_repr loaded = Ok df
    /\ d = ikut_shares df col_menunda.
Proof.
  unfold dashboard. intros He.
  destruct (df_empty loaded); [by apply list_elem_of_singleton in He|].
  apply elem_of_page_bind in He as [He|(df & Hdf & He)];
    [by apply elem_of_nil in He|].
  apply elem_of_page_bind in He as [He|(filtered & Hf & He)];
    [by apply elem_of_nil in He|].
  cbn [lift outcome] in Hdf. exists df. split; [done|].
  do 13 (apply elem_of_page_bind in He as [He|(? & _ & He)];
         [absent_here is_menunda_chart He|]).
  apply elem_of_page_bind in He as [He|(? & _ & He)];
    [by apply ya_section_chart in He|].
  absent_here is_menunda_chart He.
Qed.

(** C2, on the sample table with only the faculty "Teknik" selected: the
    run completes, the exported table holds the one Teknik respondent, whose
    answer is "Jarang", and the chart of the section "Menunda" still counts
    the answer "Sering" of the respondent the filter excludes. *)
Theorem menunda_reads_unfiltered_table :
  outcome (dashboard Sample.fr Sample.t1 Sample.only_teknik true) = Ok tt
  /\ omap (fun e => match e with
                    | Download t =>
                        Some (series t "Fakultas", series t col_menunda)
                    | _ => None
                    end)
       (page (dashboard Sample.fr Sample.t1 Sample.only_teknik true))
     = [([VStr "Teknik"], [VStr "Jarang"])]
  /\ omap (fun e => match e with
                    | ShareChart Menunda d => Some (map fst d)
                    | _ => None
                    end)
       (page (dashboard Sample.fr Sample.t1 Sample.only_teknik true))
     = [[VStr "Jarang"; VStr "Sering"]].
Proof. repeat split; vm_compute; reflexivity. Qed.

(** ** Shares in exact arithmetic *)

Lemma Qc_of_nat_add (a b : nat) :
  Qc_of_nat (a + b) = (Qc_of_nat a + Qc_of_nat b)%Qc.
Proof. unfold Qc_of_nat. by rewrite Nat2Z.inj_add, Z2Qc_inj_add. Qed.

Lemma percent_add (a b total : nat) :
  percent (a + b) total = (percent a total + percent b total)%Qc.
Proof. unfold percent. rewrite Qc_of_nat_add. unfold Qcdiv. ring. Qed.

Lemma percent_zero (total : nat) : percent 0 total = 0%Qc.
Proof.
  unfold percent, Qcdiv, Qc_of_nat.
  change (Z.of_nat 0) with 0%Z. rewrite Z2Qc_inj_0. ring.
Qed.

Lemma percent_all (total : nat) :
  total <> 0 -> percent total total = Qc_of_Z 100.
Proof.
  intros Hne. unfold percent, Qcdiv.
  rewrite Qcmult_inv_r; [ring|].
  unfold Qc_of_nat. rewrite <- Z2Qc_inj_0. intros H%Z2Qc_inj. lia.
Qed.

Lemma sum_shares_percent (counts : list (value * nat)) (total : nat) :
  sum_shares (map (fun p => (p.1, percent p.2 total)) counts)
  = percent (sum_counts counts) total.
Proof.
  induction counts as [|p counts IH]; simpl.
  - by rewrite percent_zero.
  - fold (sum_counts counts). rewrite percent_add. by rewrite <- IH.
Qed.

(** Before any rounding, the shares of a column with a value that is not
    missing add up to 100. *)
Lemma value_counts_pct_sum_exact (l : list value) :
  dropna l <> [] -> sum_shares (value_counts_pct l) = Qc_of_Z 100.
Proof.
  intros Hne. unfold value_counts_pct.
  rewrite sum_shares_percent. apply percent_all.
  rewrite sum_value_counts. by destruct (dropna l).
Qed.

(** * Further properties of the code *)

(** ** More on the masking functions *)

Lemma all_stars_eq (s : string) : all_stars s -> s = Str.stars (String.length s).
Proof.
  unfold all_stars. induction s as [|c s IH]; cbn [Str.forallb]; [done|].
  intros [Hc Hs]%andb_prop. apply Ascii.eqb_eq in Hc as <-.
  cbn [String.length Str.stars]. f_equal. by apply IH.
Qed.

Lemma filter_forallb_str (p : ascii -> bool) (s : string) :
  Str.forallb p (Str.filter p s) = true.
Proof.
  induction s as [|c s IH]; [reflexivity|]. cbn [Str.filter].
  destruct (p c) eqn:Hc; [|exact IH]. cbn [Str.forallb]. by rewrite Hc.
Qed.

Lemma forallb_impl_str (p q : ascii -> bool) (s : string) :
  (forall c, p c = true -> q c = true) ->
  Str.forallb p s = true -> Str.forallb q s = true.
Proof.
  intros Hpq. induction s as [|c s IH]; [done|]. cbn [Str.forallb].
  intros [Hc Hs]%andb_prop. by rewrite (Hpq c Hc), IH.
Qed.

Lemma forallb_take_str (p : ascii -> bool) (n : nat) (s : string) :
  Str.forallb p s = true -> Str.forallb p (Str.take n s) = true.
Proof.
  revert s; induction n as [|n IH]; intros s; [done|].
  destruct s as [|c s]; [done|]. cbn [Str.take Str.forallb].
  intros [Hc Hs]%andb_prop. by rewrite Hc, IH.
Qed.

Section MoreMasking.

Variable float_repr : Qc -> string.

(** X1: [mask_phone] keeps nothing of its input but digits: the output is as
    long as the input has digits and is made of digits and asterisks; up to
    three digits it is all asterisks, beyond that it is the first three
    digits followed by one asterisk for each digit left. *)
Theorem mask_phone_spec (phone : value) :
  let digits := Str.filter Str.isdigit (py_str float_repr phone) in
  exists out,
    mask_phone float_repr phone = Ok (VStr out)
    /\ String.length out = String.length digits
    /\ Str.forallb digit_or_star out = true
    /\ (String.length digits <= 3 -> all_stars out)
    /\ (3 < String.length digits ->
        exists pre rest,
          digits = pre +:+ rest /\ String.length pre = 3
          /\ out = pre +:+ Str.stars (String.length rest)).
Proof.
  intros digits. unfold mask_phone. fold digits.
  assert (Hdig : Str.forallb Str.isdigit digits = true)
    by apply filter_forallb_str.
  assert (Hstar : forall n, Str.forallb digit_or_star (Str.stars n) = true).
  { intros n. apply (forallb_impl_str (Ascii.eqb "*")); [|apply stars_all].
    intros c <-%Ascii.eqb_eq. reflexivity. }
  destruct (String.length digits <=? 3)%nat eqn:Hlen.
  - apply Nat.leb_le in Hlen. eexists. split; [reflexivity|].
    split; [apply stars_length|]. split; [apply Hstar|].
    split; [intros _; apply stars_all | lia].
  - apply Nat.leb_gt in Hlen. eexists. split; [reflexivity|].
    assert (Hpre : String.length (Str.take 3 digits) = 3)
      by (apply take_length; lia).
    split; [rewrite app_length_str, stars_length, Hpre; lia|].
    split.
    { rewrite forallb_app_str, Hstar, andb_true_r.
      apply (forallb_impl_str Str.isdigit); [|by apply forallb_take_str].
      intros c Hc. unfold digit_or_star. by rewrite Hc. }
    split; [lia|]. intros _.
    destruct (take_prefix 3 digits) as [rest Hrest].
    exists (Str.take 3 digits), rest. split; [done|]. split; [done|].
    f_equal. f_equal.
    rewrite Hrest at 1. rewrite app_length_str, Hpre. lia.
Qed.

Lemma mask_part_masked (p m : string) :
  masked_token p m -> mask_part m = Ok m.
Proof.
  intros (_ & c & rest & rest' & _ & -> & Hst).
  unfold mask_part. f_equal. f_equal.
  cbn [String.length]. rewrite Nat.sub_1_r. simpl.
  symmetry. by apply all_stars_eq.
Qed.

Lemma mask_parts_masked (ps ms : list string) :
  Forall2 masked_token ps ms -> map_result mask_part ms = Ok ms.
Proof.
  induction 1 as [|p m ps ms Hpm _ IH]; [reflexivity|].
  simpl. rewrite (mask_part_masked p m Hpm). simpl. by rewrite IH.
Qed.

(** X2: Masking a masked name changes nothing. *)
Theorem mask_name_idempotent (name masked : value) :
  mask_name float_repr name = Ok masked ->
  mask_name float_repr masked = Ok masked.
Proof.
  destruct (isna name) eqn:Hna.
  - rewrite (mask_name_na float_repr name Hna). intros [= <-].
    by apply mask_name_na.
  - destruct (mask_name_tokens float_repr name Hna)
      as (out & Hout & Htok & Hjoin & _).
    rewrite Hout. intros [= <-].
    unfold mask_name. cbn [isna py_str].
    rewrite (mask_parts_masked _ _ Htok). simpl. by rewrite <- Hjoin.
Qed.

Lemma take_app_exact (n : nat) (pre t : string) :
  String.length pre = n -> Str.take n (pre +:+ t) = pre.
Proof.
  revert pre; induction n as [|n IH]; intros [|c pre] Hn; try done.
  cbn [String.length] in Hn.
  change (String c pre +:+ t) with (String c (pre +:+ t)).
  cbn [Str.take]. f_equal. apply IH. lia.
Qed.

(** X3: Masking a masked NPM changes nothing. *)
Theorem mask_npm_idempotent (npm masked : value) :
  mask_npm float_repr npm = Ok masked ->
  mask_npm float_repr masked = Ok masked.
Proof.
  unfold mask_npm. set (s := py_str float_repr npm).
  destruct (String.length s <=? 3)%nat eqn:Hlen.
  - intros H. injection H as <-. cbn [py_str].
    by rewrite !stars_length, Hlen.
  - apply Nat.leb_gt in Hlen.
    assert (Hpre : String.length (Str.take 3 s) = 3)
      by (apply take_length; lia).
    revert Hpre. generalize (Str.take 3 s). intros pre Hpre H.
    injection H as <-. cbn [py_str].
    rewrite app_length_str, Hpre.
    change (3 + String.length "*****" <=? 3)%nat with false.
    by rewrite (take_app_exact 3 pre) by done.
Qed.

End MoreMasking.

Lemma mask_name_idempotent_witness :
  mask_name Sample.fr (VStr "B*** S******") = Ok (VStr "B*** S******").
Proof.
  apply (mask_name_idempotent Sample.fr (VStr "Budi Santoso")). reflexivity.
Defined.

Lemma mask_npm_idempotent_witness :
  mask_npm Sample.fr (VStr "210*****") = Ok (VStr "210*****").
Proof.
  apply (mask_npm_idempotent Sample.fr (VInt 21081010)).
  vm_compute. reflexivity.
Defined.

(** ** The masking block touches nothing else *)

Lemma lookup_mask_cell_ne (c c' : string) (f : value -> result value)
    (cols : list string) (r : gmap string value) :
  c <> c' -> mask_cell c f cols r !! c' = r !! c'.
Proof.
  intros Hne. unfold mask_cell. destruct (bool_decide _); [|done].
  by apply lookup_insert_ne.
Qed.

Lemma mask_cell_absent (c : string) (f : value -> result value)
    (cols : list string) (r : gmap string value) :
  c ∉ cols -> mask_cell c f cols r = r.
Proof. intros Hc. unfold mask_cell. by rewrite bool_decide_eq_false_2. Qed.

Lemma lookup_mask_row (float_repr : Qc -> string) (cols : list string)
    (r : gmap string value) (c : string) :
  c ∉ identity_columns -> mask_row float_repr cols r !! c = r !! c.
Proof.
  unfold identity_columns. rewrite !not_elem_of_cons.
  intros (H1 & H2 & H3 & H4 & _). unfold mask_row.
  destruct (bool_decide _); by rewrite !lookup_mask_cell_ne.
Qed.

Lemma mask_row_absent (float_repr : Qc -> string) (cols : list string)
    (r : gmap string value) :
  (forall c, c ∈ identity_columns -> c ∉ cols) ->
  mask_row float_repr cols r = r.
Proof.
  intros H. unfold mask_row.
  assert (Hin : forall c, c ∈ identity_columns -> c ∉ cols) by exact H.
  destruct (bool_decide _);
    rewrite !mask_cell_absent; try done;
    apply Hin; unfold identity_columns; set_solver.
Qed.

(** X4: The masking block never raises; it keeps the column index and the
    number and order of the rows, and leaves every cell outside the four
    identity columns as loaded.  On a table with none of the four columns
    it returns the table itself. *)
Theorem df_masked_frame (float_repr : Qc -> string) (df : DataFrame) :
  exists df',
    df_masked float_repr df = Ok df'
    /\ columns df' = columns df
    /\ length (rows df') = length (rows df)
    /\ Forall2 (fun r r' => forall c, c ∉ identity_columns -> r' !! c = r !! c)
         (rows df) (rows df')
    /\ ((forall c, c ∈ identity_columns -> c ∉ columns df) -> df' = df).
Proof.
  eexists. split; [apply df_masked_eq|]. cbn [columns rows].
  split; [done|]. split; [by rewrite length_map|]. split.
  - apply Forall2_fmap_r, Forall_Forall2_diag, Forall_forall.
    intros r _ c Hc. by apply lookup_mask_row.
  - intros Habs. destruct df as [cols rs]. cbn [columns rows] in *. f_equal.
    rewrite <- (map_id rs) at 2. apply map_ext. intros r.
    by apply mask_row_absent.
Qed.

(** ** The option lists of the sidebar *)

Lemma Qc_leb_total (x y : Qc) : Qc_leb x y = false -> Qc_leb y x = true.
Proof. intros H%Qc_leb_false. by apply Qc_leb_true. Qed.

Lemma Qc_leb_antisym (x y : Qc) :
  Qc_leb x y = true -> Qc_leb y x = true -> x = y.
Proof. intros H1%Qc_leb_true H2%Qc_leb_true. by apply Qcle_antisym. Qed.

Lemma string_ltb_asym (s t : string) :
  String.ltb s t = true -> String.ltb t s = false.
Proof.
  unfold String.ltb. rewrite (String.compare_antisym t s).
  by destruct (String.compare s t).
Qed.

Lemma string_ltb_trich (s t : string) :
  String.ltb t s = false -> s <> t -> String.ltb s t = true.
Proof.
  unfold String.ltb. rewrite (String.compare_antisym t s).
  destruct (String.compare s t) eqn:Hc; try done.
  intros _ Hne. by apply String.compare_eq_iff in Hc.
Qed.

Lemma py_ltb_asym (a b : value) : py_lt a b -> py_le a b.
Proof.
  unfold py_lt, py_le.
  destruct a, b; cbn [py_ltb num_of]; try done; intros [= H]; f_equal;
    first [ by apply string_ltb_asym
          | apply negb_true_iff in H; apply Qc_leb_total in H; by rewrite H ].
Qed.

Lemma py_ltb_trich (a b : value) : py_le a b -> key a <> key b -> py_lt a b.
Proof.
  unfold py_lt, py_le.
  destruct a, b; cbn [py_ltb num_of key]; try done; intros [= H] Hne; f_equal;
    first [ apply string_ltb_trich; [done | congruence]
          | apply negb_false_iff in H; apply negb_true_iff;
            match goal with
            | |- Qc_leb ?y ?x = false =>
                destruct (Qc_leb y x) eqn:E; [|done];
                exfalso; apply Hne; f_equal; by apply Qc_leb_antisym
            end ].
Qed.

Lemma insert_sorted_hd (x y : value) (l r : list value) :
  insert_sorted x l = Ok r -> HdRel py_le y l -> py_le y x -> HdRel py_le y r.
Proof.
  destruct l as [|z l]; simpl.
  - intros [= <-] _ Hyx. by constructor.
  - destruct (py_ltb z x) as [[]|]; simpl; [| |done].
    + destruct (insert_sorted x l) as [r'|]; simpl; [|done].
      intros [= <-] Hy _. inversion Hy; subst. by constructor.
    + intros [= <-] _ Hyx. by constructor.
Qed.

Lemma insert_sorted_sorted (x : value) (l r : list value) :
  Sorted py_le l -> insert_sorted x l = Ok r -> Sorted py_le r.
Proof.
  revert r; induction l as [|z l IH]; intros r Hs; simpl.
  - intros [= <-]. repeat constructor.
  - inversion Hs as [|? ? Hl Hz]; subst.
    destruct (py_ltb z x) as [[]|] eqn:Hzx; simpl; [| |done].
    + destruct (insert_sorted x l) as [r'|] eqn:Hr'; simpl; [|done].
      intros [= <-]. constructor; [by apply IH|].
      apply (insert_sorted_hd x z l r' Hr' Hz). by apply py_ltb_asym.
    + intros [= <-]. constructor; [done|]. by constructor.
Qed.

Lemma py_sorted_sorted (l s : list value) :
  py_sorted l = Ok s -> Sorted py_le s.
Proof.
  revert s; induction l as [|x l IH]; intros s; simpl.
  - intros [= <-]. constructor.
  - destruct (py_sorted l) as [s'|]; simpl; [|done].
    apply insert_sorted_sorted. by apply IH.
Qed.

Lemma nodup_key_filter (p : value -> bool) (l : list value) :
  NoDup (map key l) -> NoDup (map key (List.filter p l)).
Proof.
  induction l as [|x l IH]; simpl; [done|].
  intros [Hx Hl]%NoDup_cons. destruct (p x); [|by apply IH].
  simpl. apply NoDup_cons. split; [|by apply IH].
  intros (y & Hy & Hin)%list_elem_of_fmap. apply Hx.
  apply list_elem_of_fmap. exists y. split; [done|].
  by apply elem_of_filter_bool in Hin as [? _].
Qed.

(** The distinct values differ pairwise. *)
Lemma unique_nodup (l : list value) : NoDup (map key (unique l)).
Proof.
  induction l as [|x l IH]; simpl; [constructor|].
  apply NoDup_cons. split; [|by apply nodup_key_filter].
  intros (y & Hy & Hin)%list_elem_of_fmap.
  apply elem_of_filter_bool in Hin as [_ Hn].
  apply negb_true_iff in Hn. apply py_eqb_key in Hy. congruence.
Qed.

Lemma sorted_strict (s : list value) :
  Sorted py_le s -> NoDup (map key s) -> Sorted py_lt s.
Proof.
  induction 1 as [|a s Hs IH Hhd]; simpl; [constructor|].
  intros [Ha Hnd]%NoDup_cons. constructor; [by apply IH|].
  destruct Hhd as [|b s Hab]; constructor.
  apply py_ltb_trich; [done|]. intros Hk. apply Ha.
  rewrite Hk. simpl. left.
Qed.

Lemma py_sorted_raise (l : list value) (e : exn) :
  py_sorted l = Raise e -> e = TypeError.
Proof.
  assert (Hlt : forall a b, py_ltb a b = Raise e -> e = TypeError).
  { intros a b. destruct a, b; simpl; congruence. }
  assert (Hins : forall x s, insert_sorted x s = Raise e -> e = TypeError).
  { intros x s. induction s as [|y s IH]; simpl; [done|].
    destruct (py_ltb y x) as [[]|] eqn:Hyx; simpl.
    - destruct (insert_sorted x s); simpl; [done|]. intros [= ->]. by apply IH.
    - done.
    - intros [= ->]. by apply (Hlt y x). }
  induction l as [|x l IH]; simpl; [done|].
  destruct (py_sorted l) as [s|]; simpl.
  - apply Hins.
  - intros [= ->]. by apply IH.
Qed.

(** X5: The options of a column are the values of its cells that are not
    missing, each offered once: an option is a value of the column, every
    value of the column is among the options, and no two options are
    equal.  A table without the column has no options. *)
Theorem column_options_content (df : DataFrame) (c : string) (fo : list value) :
  column_options df c = Ok fo ->
  (has_column df c = false -> fo = [])
  /\ (forall v, v ∈ fo -> isna v = false /\ v ∈ series df c)
  /\ (forall r, r ∈ rows df -> has_column df c = true ->
        isna (cell r c) = false -> isin (cell r c) fo = true)
  /\ (forall i j a b, fo !! i = Some a -> fo !! j = Some b -> i <> j ->
        py_eqb a b = false).
Proof.
  intros Hfo. split; [|split; [|split]].
  - intros Hc. unfold column_options in Hfo. rewrite Hc in Hfo. congruence.
  - intros v Hv.
    destruct (column_options_inv df c fo Hfo) as [[_ Hp]|[_ ->]];
      [|by apply elem_of_nil in Hv].
    rewrite Hp in Hv. apply unique_subset, elem_of_dropna in Hv. tauto.
  - intros r Hr Hc Hna. by apply (isin_options df c fo r).
  - intros i j a b Hi Hj Hij.
    assert (Hnd : NoDup (map key fo)).
    { destruct (column_options_inv df c fo Hfo) as [[_ Hp]|[_ ->]];
        [|constructor].
      rewrite Hp. apply unique_nodup. }
    destruct (py_eqb a b) eqn:Hab; [|done].
    apply py_eqb_key in Hab. exfalso. apply Hij.
    apply (proj1 (NoDup_alt _) Hnd i j (key a));
      rewrite list_lookup_fmap; [by rewrite Hi | by rewrite Hj, Hab].
Qed.

Lemma column_options_content_witness :
  (has_column Sample.t1 "Fakultas" = false -> [VStr "Hukum"; VStr "Teknik"] = [])
  /\ (forall v, v ∈ [VStr "Hukum"; VStr "Teknik"] ->
        isna v = false /\ v ∈ series Sample.t1 "Fakultas")
  /\ (forall r, r ∈ rows Sample.t1 -> has_column Sample.t1 "Fakultas" = true ->
        isna (cell r "Fakultas") = false ->
        isin (cell r "Fakultas") [VStr "Hukum"; VStr "Teknik"] = true)
  /\ (forall i j a b,
        [VStr "Hukum"; VStr "Teknik"] !! i = Some a ->
        [VStr "Hukum"; VStr "Teknik"] !! j = Some b -> i <> j ->
        py_eqb a b = false).
Proof.
  apply (column_options_content Sample.t1 "Fakultas").
  vm_compute. reflexivity.
Defined.

(** X6: The options are listed in strictly ascending order. *)
Theorem column_options_ascending (df : DataFrame) (c : string)
    (fo : list value) :
  column_options df c = Ok fo -> Sorted py_lt fo.
Proof.
  intros Hfo. apply sorted_strict.
  - unfold column_options in Hfo.
    destruct (has_column df c); [by apply py_sorted_sorted in Hfo|].
    injection Hfo as <-. constructor.
  - destruct (column_options_inv df c fo Hfo) as [[_ Hp]|[_ ->]];
      [|constructor].
    rewrite Hp. apply unique_nodup.
Qed.

Lemma column_options_ascending_witness :
  Sorted py_lt [VInt 3; VInt 5].
Proof.
  apply (column_options_ascending Sample.t1 "Semester").
  vm_compute. reflexivity.
Defined.

Lemma column_options_raise_kind (df : DataFrame) (c : string) (e : exn) :
  column_options df c = Raise e -> e = TypeError.
Proof.
  unfold column_options. destruct (has_column df c); [|done].
  apply py_sorted_raise.
Qed.

(** X7: Building the options raises exactly when the column holds both a text
    value and a number, and then it is a [TypeError]. *)
Theorem column_options_raises (df : DataFrame) (c : string) (e : exn) :
  column_options df c = Raise e <->
  e = TypeError
  /\ has_column df c = true
  /\ exists a b, a ∈ series df c /\ b ∈ series df c
                 /\ kind a = Some true /\ kind b = Some false.
Proof.
  set (l := dropna (series df c)).
  split.
  - intros Hr. unfold column_options in Hr.
    destruct (has_column df c) eqn:Hc; [|done].
    split; [by apply py_sorted_raise in Hr|]. split; [done|].
    destruct (existsb (fun v => bool_decide (kind v = Some true)) l) eqn:Ht;
      destruct (existsb (fun v => bool_decide (kind v = Some false)) l) eqn:Hn.
    + apply existsb_exists in Ht as (a & Ha & Hka).
      apply existsb_exists in Hn as (b & Hb & Hkb).
      apply bool_decide_eq_true in Hka, Hkb.
      apply list_elem_of_In, elem_of_dropna in Ha as [Ha _].
      apply list_elem_of_In, elem_of_dropna in Hb as [Hb _].
      by exists a, b.
    + exfalso.
      destruct (py_sorted_total (unique l)) as [s Hs]; [|fold l in Hr; congruence].
      apply same_kind_unique. exists true. apply Forall_forall.
      intros v Hv. pose proof Hv as [_ Hna]%elem_of_dropna.
      destruct (kind_not_na v Hna) as [[] Hk]; [done|].
      assert (Hex : existsb (fun v => bool_decide (kind v = Some false)) l = true);
        [|congruence].
      apply existsb_exists. exists v. split; [by apply list_elem_of_In|].
      by apply bool_decide_eq_true.
    + exfalso.
      destruct (py_sorted_total (unique l)) as [s Hs]; [|fold l in Hr; congruence].
      apply same_kind_unique. exists false. apply Forall_forall.
      intros v Hv. pose proof Hv as [_ Hna]%elem_of_dropna.
      destruct (kind_not_na v Hna) as [[] Hk]; [|done].
      assert (Hex : existsb (fun v => bool_decide (kind v = Some true)) l = true);
        [|congruence].
      apply existsb_exists. exists v. split; [by apply list_elem_of_In|].
      by apply bool_decide_eq_true.
    + exfalso.
      destruct (py_sorted_total (unique l)) as [s Hs]; [|fold l in Hr; congruence].
      apply same_kind_unique. exists true. apply Forall_forall.
      intros v Hv. pose proof Hv as [_ Hna]%elem_of_dropna.
      destruct (kind_not_na v Hna) as [[] Hk]; [done|].
      assert (Hex : existsb (fun v => bool_decide (kind v = Some false)) l = true);
        [|congruence].
      apply existsb_exists. exists v. split; [by apply list_elem_of_In|].
      by apply bool_decide_eq_true.
  - intros (-> & Hc & a & b & Ha & Hb & Hka & Hkb).
    destruct (column_options df c) as [fo|e] eqn:Hfo.
    + exfalso.
      destruct (column_options_same_kind df c fo Hfo Hc) as [k Hk].
      rewrite Forall_forall in Hk.
      assert (Hka' : kind a = Some k).
      { apply Hk, elem_of_dropna. split; [done | by destruct a]. }
      assert (Hkb' : kind b = Some k).
      { apply Hk, elem_of_dropna. split; [done | by destruct b]. }
      congruence.
    + f_equal. unfold column_options in Hfo. rewrite Hc in Hfo.
      by apply py_sorted_raise in Hfo.
Qed.

(** ** The filter block on any table *)

Lemma keep_row_passes (df : DataFrame) (sel : Selection) (fo so : list value)
    (r : gmap string value) :
  fakultas_options df = Ok fo -> semester_options df = Ok so ->
  keep_row fo so (has_column df "IPK") sel r = passes_b df sel r.
Proof.
  intros Hfo Hso. unfold keep_row, passes_b.
  rewrite (truthy_options df "Fakultas" fo Hfo).
  by rewrite (truthy_options df "Semester" so Hso).
Qed.

Lemma passes_b_passes (df : DataFrame) (sel : Selection)
    (r : gmap string value) :
  passes_b df sel r = true <-> passes df sel r.
Proof.
  unfold passes_b, passes. rewrite !andb_true_iff.
  destruct (has_values df "Fakultas"), (has_values df "Semester"),
    (has_column df "IPK"); rewrite ?in_range_b_spec; intuition congruence.
Qed.

(** X8: Whatever columns the table has, the filtered table keeps the column
    index and holds, in table order and with their repetitions, exactly the
    rows that pass the tests in force; a dimension whose column is missing
    or empty lets every row through. *)
Theorem df_filtered_gated (df t : DataFrame) (sel : Selection) :
  df_filtered df sel = Ok t ->
  columns t = columns df
  /\ rows t = List.filter (passes_b df sel) (rows df)
  /\ forall r, passes_b df sel r = true <-> passes df sel r.
Proof.
  intros (fo & so & Hfo & Hso & Hcols & Hrows & _)%df_filtered_inv.
  split; [done|]. split; [|apply passes_b_passes].
  rewrite Hrows. apply filter_ext_in_bool. intros r _.
  by apply keep_row_passes.
Qed.

Lemma df_filtered_gated_witness :
  columns Sample.with_missing_view = columns Sample.with_missing
  /\ rows Sample.with_missing_view
     = List.filter (passes_b Sample.with_missing Sample.with_missing_sel)
         (rows Sample.with_missing)
  /\ forall r,
       passes_b Sample.with_missing Sample.with_missing_sel r = true
       <-> passes Sample.with_missing Sample.with_missing_sel r.
Proof.
  apply (df_filtered_gated Sample.with_missing).
  vm_compute. reflexivity.
Defined.

Lemma filter_result_raise {A} (p : A -> result bool) (l : list A) (e : exn) :
  filter_result p l = Raise e -> exists x, x ∈ l /\ p x = Raise e.
Proof.
  induction l as [|x l IH]; simpl; [done|].
  destruct (p x) as [b|e'] eqn:Hpx; simpl.
  - destruct (filter_result p l) as [ys|e'']; simpl; [done|].
    intros [= ->]. destruct (IH eq_refl) as (y & Hy & Hpy).
    exists y. split; [by right | done].
  - intros [= ->]. exists x. split; [left | done].
Qed.

(** X9: The filter block raises nothing but [TypeError], and it returns on
    every table whose faculty values are of one kind, whose semester values
    are of one kind, and whose IPK cells hold no text. *)
Theorem df_filtered_errors (df : DataFrame) (sel : Selection) :
  (forall e, df_filtered df sel = Raise e -> e = TypeError)
  /\ (well_typed df = true -> exists t, df_filtered df sel = Ok t).
Proof.
  split.
  - intros e. unfold df_filtered, fakultas_options, semester_options.
    destruct (column_options df "Fakultas") as [fo|e1] eqn:Hfo; simpl.
    2: { intros [= <-]. by apply (column_options_raise_kind df "Fakultas"). }
    destruct (column_options df "Semester") as [so|e2] eqn:Hso; simpl.
    2: { intros [= <-]. by apply (column_options_raise_kind df "Semester"). }
    destruct (has_column df "IPK"); [|done].
    destruct (filter_result _ _) as [rs|e3] eqn:Hrs; simpl; [done|].
    intros [= <-]. apply filter_result_raise in Hrs as (r & _ & Hr).
    unfold in_range in Hr. destruct (cell r "IPK"); congruence.
  - intros Hwt.
    destruct (df_filtered_total df sel Hwt) as (fo & so & _ & _ & Hres).
    eauto.
Qed.

(** ** The shape of a distribution *)

Section SortDescSorted.

Context {A : Type} (geb : A -> A -> bool).
Hypothesis geb_total : forall a b, geb a b = false -> geb b a = true.


Lemma insert_desc_hd (x y : value * A) (l : list (value * A)) :
  HdRel (desc geb) y l -> (desc geb) y x -> HdRel (desc geb) y (insert_desc geb x l).
Proof.
  destruct l as [|z l]; simpl; [by constructor|].
  intros Hy Hyx. destruct (geb x.2 z.2); constructor; [done|].
  by inversion Hy.
Qed.

Lemma insert_desc_sorted (x : value * A) (l : list (value * A)) :
  Sorted (desc geb) l -> Sorted (desc geb) (insert_desc geb x l).
Proof.
  induction l as [|z l IH]; simpl; intros Hs; [repeat constructor|].
  inversion Hs as [|? ? Hl Hz]; subst.
  destruct (geb x.2 z.2) eqn:Hxz.
  - constructor; [done | by constructor].
  - constructor; [by apply IH|].
    apply insert_desc_hd; [done|]. by apply geb_total.
Qed.

Lemma sort_desc_sorted (l : list (value * A)) : Sorted (desc geb) (sort_desc geb l).
Proof.
  induction l as [|x l IH]; simpl; [constructor|].
  by apply insert_desc_sorted.
Qed.

End SortDescSorted.

Lemma count_of_self (v : value) (l : list value) : v ∈ l -> 1 <= count_of v l.
Proof.
  intros Hv. unfold count_of.
  assert (Hin : v ∈ List.filter (py_eqb v) l)
    by (apply elem_of_filter_bool; split; [done | apply py_eqb_refl]).
  destruct (List.filter (py_eqb v) l); [by apply elem_of_nil in Hin|].
  simpl. lia.
Qed.

Lemma sum_counts_bound (counts : list (value * nat)) (m : nat) :
  (forall p, p ∈ counts -> p.2 <= m) ->
  sum_counts counts <= m * length counts.
Proof.
  induction counts as [|p counts IH]; intros H; simpl; [lia|].
  fold (sum_counts counts).
  pose proof (H p ltac:(left)) as Hp.
  assert (Hrest : sum_counts counts <= m * length counts)
    by (apply IH; intros q Hq; apply H; by right).
  lia.
Qed.

(** X10: [value_counts] lists each value of the series that is not missing
    exactly once, with the number of cells equal to it, which is at least
    one; the counts run from the largest to the smallest and add up to the
    number of cells that are not missing. *)
Theorem value_counts_shape (l : list value) :
  Sorted (fun p q => q.2 <= p.2) (value_counts l)
  /\ (forall v n, (v, n) ∈ value_counts l ->
        isna v = false /\ v ∈ l /\ n = count_of v (dropna l) /\ 1 <= n)
  /\ (forall v, v ∈ l -> isna v = false ->
        isin v (map fst (value_counts l)) = true)
  /\ (forall i j p q,
        value_counts l !! i = Some p -> value_counts l !! j = Some q ->
        i <> j -> py_eqb p.1 q.1 = false)
  /\ sum_counts (value_counts l) = length (dropna l).
Proof.
  split; [|split; [|split; [|split]]].
  - pose proof (sort_desc_sorted nat_geb nat_geb_total
                  (map (fun x => (x, count_of x (dropna l))) (unique (dropna l))))
      as Hs.
    fold (value_counts l) in Hs.
    eapply Sorted_ind with (P := Sorted (fun p q => q.2 <= p.2)) in Hs;
      [exact Hs | constructor |].
    intros a s _ IH Hhd. constructor; [done|].
    destruct Hhd as [|b s Hab]; constructor.
    unfold desc, nat_geb in Hab. by apply Nat.leb_le.
  - intros v n [Hv ->]%elem_of_value_counts.
    pose proof Hv as [Hin Hna]%elem_of_dropna.
    repeat split; try done. by apply count_of_self.
  - intros v Hv Hna.
    destruct (unique_covers (dropna l) v) as (u & Hu & Huv);
      [by apply elem_of_dropna|].
    apply isin_true. exists u. split; [|by rewrite py_eqb_sym].
    apply list_elem_of_fmap. exists (u, count_of u (dropna l)).
    split; [done|]. rewrite (value_counts_perm l).
    apply list_elem_of_fmap. by exists u.
  - intros i j p q Hi Hj Hij.
    assert (Hnd : NoDup (map key (map fst (value_counts l)))).
    { rewrite (value_counts_perm l), !map_map. exact (unique_nodup _). }
    destruct (py_eqb p.1 q.1) eqn:Hpq; [|done].
    apply py_eqb_key in Hpq. exfalso. apply Hij.
    apply (proj1 (NoDup_alt _) Hnd i j (key p.1));
      rewrite !list_lookup_fmap; [by rewrite Hi | by rewrite Hj, Hpq].
  - apply sum_value_counts.
Qed.

(** A caption comes from the first entry of the value counts. *)
Lemma interpret_top_category_inv (l : list value) (c : Caption) :
  interpret_top_category (Some l) = Ok (Some c) ->
  exists rest,
    value_counts l = (cap_label c, cap_top c) :: rest
    /\ cap_total c = sum_counts (value_counts l)
    /\ cap_pct c = percent (cap_top c) (cap_total c).
Proof.
  destruct l as [|x l]; [done|]. set (s := x :: l).
  unfold interpret_top_category. fold s.
  destruct (sum_counts (value_counts s) =? 0)%nat; [done|].
  destruct (value_counts s) as [|[v n] rest] eqn:Hvc; [done|].
  unfold pct_str.
  destruct (sum_counts ((v, n) :: rest)) eqn:Hsum; [done|].
  cbn [mbind result_bind]. intros [= <-]. by exists rest.
Qed.

(** X11: The count the caption reports is at least one and at most the total,
    and it is no less than the average count: the total does not exceed the
    top count times the number of distinct values. *)
Theorem top_category_bounds (l : list value) (c : Caption) :
  interpret_top_category (Some l) = Ok (Some c) ->
  1 <= cap_top c
  /\ cap_top c <= cap_total c
  /\ cap_total c <= cap_top c * length (value_counts l).
Proof.
  intros (rest & Hvc & Htot & _)%interpret_top_category_inv.
  rewrite Htot. split; [|split].
  - destruct (elem_of_value_counts l (cap_label c) (cap_top c)) as [Hv ->];
      [rewrite Hvc; left|].
    by apply count_of_self.
  - rewrite Hvc. simpl. lia.
  - apply sum_counts_bound. intros [v n] Hp. cbn [snd].
    apply elem_of_value_counts in Hp as [_ ->].
    by apply (value_counts_head rest l (cap_label c)).
Qed.

Lemma top_category_bounds_witness :
  1 <= 2 /\ 2 <= 3
  /\ 3 <= 2 * length (value_counts [VStr "Ya"; VStr "Ya"; VStr "Tidak"]).
Proof.
  apply (top_category_bounds [VStr "Ya"; VStr "Ya"; VStr "Tidak"]
           (mkCaption (VStr "Ya") 2 (percent 2 3) 3)).
  reflexivity.
Defined.

(** ** Which sections can raise *)

Lemma outcome_bind {A B} (m : script A) (k : A -> script B) :
  outcome (m ≫= k) =
  match outcome m with
  | Ok a => outcome (k a)
  | Raise e => Raise e
  end.
Proof. unfold mbind, script_bind. by destruct (outcome m). Qed.

Lemma sort_desc_nil {A} (geb : A -> A -> bool) (l : list (value * A)) :
  sort_desc geb l = [] <-> l = [].
Proof.
  split; [|by intros ->].
  intros H. pose proof (sort_desc_perm geb l) as Hp. rewrite H in Hp.
  by apply Permutation_nil_l in Hp.
Qed.

Lemma top_share_raise (dist : list (value * Qc)) (e : exn) :
  top_share dist = Raise e <-> e = IndexError /\ dist = [].
Proof.
  unfold top_share. destruct (sort_desc Qc_geb dist) as [|p s] eqn:Hs.
  - apply sort_desc_nil in Hs. split; [by intros [= <-] | by intros [-> _]].
  - split; [done|]. intros [_ ->]. done.
Qed.


Lemma forallb_false_ex {A} (p : A -> bool) (l : list A) :
  forallb p l = false <-> exists x, x ∈ l /\ p x = false.
Proof.
  induction l as [|y l IH]; simpl.
  - split; [done | by intros (x & Hx%elem_of_nil & _)].
  - rewrite andb_false_iff, IH. split.
    + intros [Hy|(x & Hx & Hp)]; [exists y; split; [left | done]|].
      exists x. split; [by right | done].
    + intros (x & [->|Hx]%elem_of_cons & Hp); [by left | right; eauto].
Qed.

Lemma existsb_false_all {A} (p : A -> bool) (l : list A) :
  existsb p l = false <-> forall x, x ∈ l -> p x = false.
Proof.
  induction l as [|y l IH]; simpl.
  - split; [by intros _ x Hx%elem_of_nil | done].
  - rewrite orb_false_iff, IH. split.
    + intros [Hy Hl] x [->|Hx]%elem_of_cons; [done | by apply Hl].
    + intros H. split; [apply H; left | intros x Hx; apply H; by right].
Qed.

(** The accessor raises nothing but [AttributeError], and exactly on a
    column that is not an object column or holds numbers and no text. *)
Lemma str_accessor_raise (o : bool) (col : list value) (e : exn) :
  str_accessor o col = Raise e <->
  e = AttributeError
  /\ (o = false
      \/ ((exists v, v ∈ col /\ isna v = false)
          /\ forall v, v ∈ col -> is_str v = false)).
Proof.
  unfold str_accessor. destruct o; cbn [andb].
  - destruct (forallb isna col) eqn:Hm; cbn [orb].
    { split; [done|]. intros (_ & [?|[(v & Hv & Hna) _]]); [done|].
      rewrite forallb_forall in Hm. apply list_elem_of_In, Hm in Hv.
      congruence. }
    destruct (existsb is_str col) eqn:Hs.
    { split; [done|]. intros (_ & [?|[_ Hall]]); [done|].
      apply existsb_exists in Hs as (v & Hv%list_elem_of_In & Hsv).
      apply Hall in Hv. congruence. }
    split; [intros [= <-] | by intros [-> _]].
    split; [done|]. right. split.
    + by apply forallb_false_ex.
    + by apply existsb_false_all.
  - split; [intros [= <-]; split; [done | by left] | by intros [-> _]].
Qed.

Lemma str_accessor_cases (o : bool) (col : list value) :
  str_accessor o col = Ok tt \/ str_accessor o col = Raise AttributeError.
Proof. unfold str_accessor. destruct (_ && _); [by left | by right]. Qed.

Lemma df_ikut_raise (df t : DataFrame) (e : exn) :
  df_ikut df t = Raise e <-> e = AttributeError /\ str_refused df t.
Proof.
  unfold df_ikut, str_refused. rewrite <- str_accessor_raise.
  destruct (str_accessor _ _) as [[]|e']; cbn [mbind result_bind];
    [by split | split; by intros [= <-]].
Qed.

Lemma df_ikut_cases (df t : DataFrame) :
  (df_ikut df t = Ok (ikut_rows t) /\ ~ str_refused df t)
  \/ (df_ikut df t = Raise AttributeError /\ str_refused df t).
Proof.
  destruct (df_ikut df t) as [ikut|e] eqn:Hi.
  - left. split; [by rewrite (df_ikut_ok _ _ _ Hi)|].
    intros Hr.
    assert (H : df_ikut df t = Raise AttributeError) by by apply df_ikut_raise.
    congruence.
  - right. by apply df_ikut_raise in Hi as [-> ?].
Qed.

(** X12: A section whose caption is guarded never raises [IndexError]: it
    raises exactly when its two columns are in the table and the [.str]
    accessor refuses the participation column; the exception is then
    [AttributeError], and the heading is all the section has drawn. *)
Theorem ikut_section_raises (s : section_id) (df t : DataFrame) (c : string)
    (e : exn) :
  (outcome (ikut_section s df t c) = Raise e <->
   e = AttributeError
   /\ has_column t "Mengikuti kegiatan" = true
   /\ has_column t c = true
   /\ str_refused df t)
  /\ (outcome (ikut_section s df t c) = Raise e ->
      page (ikut_section s df t c) = [Subheader s]).
Proof.
  unfold ikut_section.
  destruct (has_column t "Mengikuti kegiatan"), (has_column t c);
    cbn [andb];
    try (split; [split; [done | by intros (_ & ? & ? & _)] | done]).
  rewrite outcome_bind, page_bind. cbn [emit outcome page].
  rewrite outcome_bind, page_bind. cbn [lift outcome page].
  destruct (df_ikut_cases df t) as [[-> Hok]|[-> Href]].
  - assert (Hret : outcome
        (if df_empty (ikut_rows t) then mret tt
         else
           emit (ShareChart s (value_counts_pct (series (ikut_rows t) c)));;
           (if truthy (value_counts_pct (series (ikut_rows t) c))
            then top ← lift (top_share
                               (value_counts_pct (series (ikut_rows t) c)));
                 emit (TopShareMd s top)
            else mret tt)) = Ok tt).
    { destruct (df_empty _); [done|]. rewrite outcome_bind. cbn [emit outcome].
      destruct (value_counts_pct _) as [|p dist] eqn:Hd; [done|].
      cbn [truthy]. rewrite outcome_bind. cbn [lift outcome].
      destruct (top_share (p :: dist)) as [top|e'] eqn:Ht; [done|].
      by apply top_share_raise in Ht as [_ ?]. }
    rewrite Hret. split; [|done].
    split; [done | by intros (_ & _ & _ & ?)].
  - split; [|done]. split; [by intros [= <-] | by intros (-> & _)].
Qed.


(** ** The page as a whole *)

(** The page of a run on a table that is not empty: nothing if the filter
    raises, else the table (if asked for), the export, the first metric row
    and the rest of the script. *)
Lemma dashboard_page (float_repr : Qc -> string) (loaded df : DataFrame)
    (sel : Selection) (show_table : bool) :
  df_empty loaded = false ->
  df_masked float_repr loaded = Ok df ->
  page (dashboard float_repr loaded sel show_table)
  = match df_filtered df sel with
    | Ok filtered =>
        (if show_table then [Dataframe filtered] else [])
        ++ Download filtered :: Respondents (length (rows filtered))
        :: MetricFakultas (num_fakultas filtered)
        :: page (sections df filtered)
    | Raise _ => []
    end.
Proof.
  intros Hne Hdf. unfold dashboard. rewrite Hne, Hdf.
  rewrite page_bind. cbn [lift outcome page app].
  rewrite page_bind. cbn [lift outcome page app].
  destruct (df_filtered df sel) as [filtered|]; [|done].
  destruct show_table;
    rewrite page_bind; cbn [emit mret script_ret outcome page app];
    rewrite page_bind; cbn [emit outcome page app];
    rewrite page_bind; cbn [emit outcome page app];
    rewrite page_bind; cbn [emit outcome page app]; reflexivity.
Qed.

Lemma sections_no_views (df filtered : DataFrame) :
  absent is_view (sections df filtered).
Proof. absent_sections. Qed.

Lemma sections_no_info (df filtered : DataFrame) :
  absent is_info (sections df filtered).
Proof. absent_sections. Qed.

(** X14: The banner is drawn exactly when the loaded table is empty, and then
    it is all the run draws, without raising; this is the run after a load
    that failed. *)
Theorem banner_iff_empty (float_repr : Qc -> string) (loaded : DataFrame)
    (sel : Selection) (show_table : bool) :
  (Info ∈ page (dashboard float_repr loaded sel show_table)
   <-> df_empty loaded = true)
  /\ (df_empty loaded = true ->
      page (dashboard float_repr loaded sel show_table) = [Info]
      /\ outcome (dashboard float_repr loaded sel show_table) = Ok tt)
  /\ (forall e,
        page (dashboard float_repr (load_data (Raise e)) sel show_table)
        = [Info]).
Proof.
  split; [|split].
  - destruct (df_empty loaded) eqn:Hne.
    + split; [done|]. intros _. unfold dashboard. rewrite Hne. left.
    + split; [|done]. intros Hin. exfalso.
      rewrite (dashboard_page float_repr loaded _ sel show_table Hne
                 (df_masked_eq float_repr loaded)) in Hin.
      destruct (df_filtered _ sel) as [filtered|]; [|by apply elem_of_nil in Hin].
      apply elem_of_app in Hin as [Hin|Hin].
      { destruct show_table; [|by apply elem_of_nil in Hin].
        by apply list_elem_of_singleton in Hin. }
      apply elem_of_cons in Hin as [Hin|Hin]; [done|].
      apply elem_of_cons in Hin as [Hin|Hin]; [done|].
      apply elem_of_cons in Hin as [Hin|Hin]; [done|].
      by apply sections_no_info in Hin.
  - intros Hne. unfold dashboard. by rewrite Hne.
  - intros e. reflexivity.
Qed.

(** X15: Whenever the export is offered, the respondent count shown is the
    number of rows of the exported table; the table is on the page exactly
    when the box is ticked, and then it is the exported table. *)
Theorem table_export_agree (float_repr : Qc -> string) (loaded : DataFrame)
    (sel : Selection) (show_table : bool) (t : DataFrame) :
  Download t ∈ page (dashboard float_repr loaded sel show_table) ->
  Respondents (length (rows t))
    ∈ page (dashboard float_repr loaded sel show_table)
  /\ (show_table = true ->
      Dataframe t ∈ page (dashboard float_repr loaded sel show_table))
  /\ (forall t', Dataframe t'
                   ∈ page (dashboard float_repr loaded sel show_table) ->
                 show_table = true /\ t' = t).
Proof.
  intros Hin.
  destruct (df_empty loaded) eqn:Hne.
  { unfold dashboard in Hin. rewrite Hne in Hin.
    by apply list_elem_of_singleton in Hin. }
  set (df := mkDF (columns loaded)
                (map (mask_row float_repr (columns loaded)) (rows loaded))).
  rewrite (dashboard_page float_repr loaded df sel show_table Hne
             (df_masked_eq float_repr loaded)) in *.
  destruct (df_filtered df sel) as [filtered|]; [|by apply elem_of_nil in Hin].
  assert (Hview : forall e u, view_of e = Some u ->
            e ∈ (if show_table then [Dataframe filtered] else [])
                ++ Download filtered :: Respondents (length (rows filtered))
                :: MetricFakultas (num_fakultas filtered)
                :: page (sections df filtered) ->
            u = filtered /\ (is_dataframe e = true -> show_table = true)).
  { intros e u Hu [He|He]%elem_of_app.
    - destruct show_table; [|by apply elem_of_nil in He].
      apply list_elem_of_singleton in He as ->. by injection Hu as <-.
    - apply elem_of_cons in He as [->|He]; [by injection Hu as <-|].
      apply elem_of_cons in He as [->|He]; [done|].
      apply elem_of_cons in He as [->|He]; [done|].
      apply sections_no_views in He. unfold is_view in He.
      by rewrite Hu in He. }
  destruct (Hview (Download t) t eq_refl Hin) as [-> _].
  split; [|split].
  - apply elem_of_app. right. right. left.
  - intros ->. apply elem_of_app. left. left.
  - intros t' Ht'. destruct (Hview (Dataframe t') t' eq_refl Ht') as [-> Hs].
    split; [by apply Hs | done].
Qed.

Lemma table_export_agree_witness :
  Respondents (length (rows Sample.t1_view))
    ∈ page (dashboard Sample.fr Sample.t1 Sample.only_teknik true)
  /\ (true = true ->
      Dataframe Sample.t1_view
        ∈ page (dashboard Sample.fr Sample.t1 Sample.only_teknik true))
  /\ (forall t', Dataframe t'
                   ∈ page (dashboard Sample.fr Sample.t1 Sample.only_teknik true) ->
                 true = true /\ t' = Sample.t1_view).
Proof.
  apply (table_export_agree Sample.fr Sample.t1 Sample.only_teknik true).
  vm_compute. apply list_elem_of_further, list_elem_of_here.
Defined.

(** ** Which table each share chart reads *)

Lemma ikut_section_chart (s : section_id) (df t : DataFrame) (c : string)
    (d : list (value * Qc)) :
  ShareChart s d ∈ page (ikut_section s df t c) -> d = ikut_shares t c.
Proof.
  unfold ikut_section, ikut_shares.
  destruct (_ && _); [|by intros ?%elem_of_nil].
  intros [He|(_ & _ & He)]%elem_of_page_bind.
  { by apply list_elem_of_singleton in He. }
  apply elem_of_page_bind in He as [He|(ikut & Hi & He)];
    [by apply elem_of_nil in He|].
  cbn [lift outcome] in Hi. apply df_ikut_ok in Hi as ->.
  destruct (df_empty _); [by apply elem_of_nil in He|].
  apply elem_of_page_bind in He as [He|(_ & _ & He)].
  { apply list_elem_of_singleton in He. by injection He. }
  destruct (truthy _); [|by apply elem_of_nil in He].
  apply elem_of_page_bind in He as [He|(top & _ & He)].
  { by apply elem_of_nil in He. }
  by apply list_elem_of_singleton in He.
Qed.

Lemma ganggu_section_chart (t : DataFrame) (d : list (value * Qc)) :
  ShareChart Ganggu d ∈ page (ganggu_section t) ->
  d = value_counts_pct (series t col_name_ganggu).
Proof.
  unfold ganggu_section.
  destruct (has_column _ _); [|by intros ?%elem_of_nil].
  intros [He|(_ & _ & He)]%elem_of_page_bind.
  { by apply list_elem_of_singleton in He. }
  apply elem_of_page_bind in He as [He|(_ & _ & He)].
  { apply list_elem_of_singleton in He. by injection He. }
  apply elem_of_page_bind in He as [He|(interp & _ & He)].
  { by apply elem_of_nil in He. }
  destruct interp; [by apply list_elem_of_singleton in He|].
  by apply elem_of_nil in He.
Qed.

Ltac chart_here He :=
  match type of He with
  | ShareChart ?s _ ∈ _ =>
      first
        [ absent_here (is_share_chart s) He
        | apply ya_section_chart in He; by subst
        | apply ikut_section_chart in He; by subst
        | apply ganggu_section_chart in He; by subst ]
  end.

Lemma sections_chart (df filtered : DataFrame) (s : section_id)
    (d : list (value * Qc)) :
  ShareChart s d ∈ page (sections df filtered) ->
  share_chart_source s df filtered = Some d.
Proof.
  unfold sections, late_sections. intros He.
  destruct s;
    do 11 (apply elem_of_page_bind in He as [He|(? & _ & He)];
           [chart_here He|]);
    chart_here He.
Qed.

(** X16: Every share chart on the page shows the distribution of its section
    over the table that section reads: the exported, filtered table for the
    sections "Ganggu", "Tugas" and "Pengaruh", the masked table as loaded
    for the sections "Menunda", "Sungguh" and "Dampak".  No other section
    draws a share chart. *)
Theorem share_chart_tables (float_repr : Qc -> string) (loaded : DataFrame)
    (sel : Selection) (show_table : bool) (s : section_id)
    (d : list (value * Qc)) :
  ShareChart s d ∈ page (dashboard float_repr loaded sel show_table) ->
  exists df filtered,
    df_masked float_repr loaded = Ok df
    /\ df_filtered df sel = Ok filtered
    /\ Download filtered ∈ page (dashboard float_repr loaded sel show_table)
    /\ share_chart_source s df filtered = Some d.
Proof.
  intros Hin.
  destruct (df_empty loaded) eqn:Hne.
  { unfold dashboard in Hin. rewrite Hne in Hin.
    by apply list_elem_of_singleton in Hin. }
  set (df := mkDF (columns loaded)
                (map (mask_row float_repr (columns loaded)) (rows loaded))).
  rewrite (dashboard_page float_repr loaded df sel show_table Hne
             (df_masked_eq float_repr loaded)) in *.
  destruct (df_filtered df sel) as [filtered|] eqn:Hf;
    [|by apply elem_of_nil in Hin].
  exists df, filtered. split; [apply df_masked_eq|]. split; [done|].
  split; [apply elem_of_app; right; left|].
  apply elem_of_app in Hin as [Hin|Hin].
  { destruct show_table; [|by apply elem_of_nil in Hin].
    by apply list_elem_of_singleton in Hin. }
  apply elem_of_cons in Hin as [Hin|Hin]; [done|].
  apply elem_of_cons in Hin as [Hin|Hin]; [done|].
  apply elem_of_cons in Hin as [Hin|Hin]; [done|].
  by apply sections_chart.
Qed.

Lemma share_chart_tables_witness :
  exists df filtered,
    df_masked Sample.fr Sample.t2 = Ok df
    /\ df_filtered df Sample.t2_teknik = Ok filtered
    /\ Download filtered
         ∈ page (dashboard Sample.fr Sample.t2 Sample.t2_teknik false)
    /\ share_chart_source Tugas df filtered
       = Some (ikut_shares Sample.t2_view col_tugas_cat).
Proof.
  apply (share_chart_tables Sample.fr Sample.t2 Sample.t2_teknik false).
  vm_compute.
  repeat first [apply list_elem_of_here | apply list_elem_of_further].
Defined.

(** ** The sidebar and the last three sections *)

Section Reaches.

Variable f : element -> bool.



End Reaches.




(** ** The counts of the metric row *)

Lemma is_aktif_is_ya (v : value) : is_aktif v = true -> is_ya v = true.
Proof.
  destruct v as [| |s| |]; try done. simpl.
  intros ->%String.eqb_eq. reflexivity.
Qed.

Lemma filter_length_le {A} (p q : A -> bool) (l : list A) :
  (forall x, p x = true -> q x = true) ->
  length (List.filter p l) <= length (List.filter q l).
Proof.
  intros Hpq. induction l as [|x l IH]; simpl; [lia|].
  destruct (p x) eqn:Hp.
  - rewrite (Hpq x Hp). simpl. lia.
  - destruct (q x); simpl; lia.
Qed.

Lemma filter_map_length {A B} (p : B -> bool) (g : A -> B) (l : list A) :
  length (List.filter p (map g l)) = length (List.filter (fun x => p (g x)) l).
Proof.
  induction l as [|x l IH]; simpl; [done|].
  destruct (p (g x)); simpl; by rewrite IH.
Qed.

(** Once the missing cells are filled with [""], the accessor takes what
    it took before. *)
Lemma str_accessor_fillna (col : list value) :
  forallb isna col || existsb is_str col = true ->
  forallb isna (fillna (VStr "") col)
  || existsb is_str (fillna (VStr "") col) = true.
Proof.
  destruct col as [|v col]; [done|].
  intros H. apply orb_true_iff. right.
  apply orb_true_iff in H as [H|H].
  - simpl in H. apply andb_true_iff in H as [Hv _].
    simpl. by rewrite Hv.
  - apply existsb_exists in H as (x & Hx & Hs).
    apply existsb_exists. exists x. split; [|done].
    unfold fillna. apply in_map_iff. exists x. split; [|done].
    by destruct x.
Qed.

(** X18: Wherever the sections can select the respondents who take part, the
    metric of active students is computed too, and it never exceeds their
    number: it compares without [strip], the sections compare after
    [strip]. *)
Theorem aktif_count_le_ikut (df t ikut : DataFrame) :
  has_column t "Mengikuti kegiatan" = true ->
  df_ikut df t = Ok ikut ->
  exists n, aktif_count df t = Ok (Some n) /\ n <= length (rows ikut).
Proof.
  intros Hc Hi.
  destruct (df_ikut_cases df t) as [[Hok _]|[Hr _]]; [|congruence].
  assert (ikut = ikut_rows t) as -> by congruence. clear Hok.
  unfold df_ikut, str_accessor in Hi.
  destruct (object_column df "Mengikuti kegiatan") eqn:Ho; [|done].
  cbn [andb] in Hi.
  destruct (forallb isna _ || existsb is_str _) eqn:Hacc; [|done].
  unfold aktif_count. rewrite Hc, Ho. cbn [orb].
  unfold str_accessor. cbn [andb]. rewrite (str_accessor_fillna _ Hacc).
  cbn [mbind result_bind]. eexists. split; [reflexivity|].
  unfold ikut_rows, select_rows, fillna, series. cbn [rows].
  rewrite !filter_map_length. apply filter_length_le.
  intros r. destruct (isna (cell r "Mengikuti kegiatan")) eqn:Hna; [done|].
  apply is_aktif_is_ya.
Qed.

(** In [t1] one answer is "Ya" and one is " ya ": the metric shows 1, the
    sections work on 2 respondents. *)
Lemma aktif_count_le_ikut_witness :
  exists n,
    aktif_count Sample.t1 Sample.t1 = Ok (Some n)
    /\ n <= length (rows (ikut_rows Sample.t1)).
Proof.
  apply (aktif_count_le_ikut Sample.t1 Sample.t1 (ikut_rows Sample.t1));
    vm_compute; reflexivity.
Defined.

Lemma key_incl_length (l k : list value) :
  NoDup (map key l) ->
  (forall v, v ∈ l -> exists u, u ∈ k /\ py_eqb v u = true) ->
  length l <= length k.
Proof.
  intros Hnd Hin.
  rewrite <- (length_map key l), <- (length_map key k).
  apply submseteq_length, NoDup_submseteq; [done|].
  intros x (v & -> & Hv)%list_elem_of_fmap.
  destruct (Hin v Hv) as (u & Hu & Hvu).
  apply list_elem_of_fmap. exists u. split; [by apply py_eqb_key | done].
Qed.

(** X19: The number of faculties shown for the filtered table never exceeds the
    number of faculties selected in the sidebar. *)
Theorem num_fakultas_le_selected (df t : DataFrame) (sel : Selection)
    (n : nat) :
  df_filtered df sel = Ok t ->
  num_fakultas t = Some n ->
  n <= length (fakultas sel).
Proof.
  intros Hf Hn.
  destruct (df_filtered_inv df t sel Hf)
    as (fo & so & Hfo & Hso & Hcols & Hrows & _).
  unfold num_fakultas in Hn.
  destruct (has_column t "Fakultas") eqn:Hc; [|done].
  injection Hn as <-.
  destruct (has_values df "Fakultas") eqn:Hv.
  - apply key_incl_length; [apply unique_nodup|].
    intros v [(r & Hr & ->)%elem_of_series _]%unique_subset%elem_of_dropna.
    apply isin_true. rewrite Hrows in Hr.
    apply elem_of_filter_bool in Hr as [_ Hk].
    rewrite (keep_row_passes df sel fo so r Hfo Hso) in Hk.
    apply passes_b_passes in Hk as [Hk _]. by apply Hk.
  - assert (Hnil : dropna (series t "Fakultas") = []).
    { destruct (dropna (series t "Fakultas")) as [|v l] eqn:Hd; [done|].
      exfalso.
      assert (Hin : v ∈ dropna (series df "Fakultas")).
      { apply (series_subset df t); [|rewrite Hd; left].
        intros r. by apply (df_filtered_rows df t sel). }
      unfold has_values, has_column in Hv, Hc. rewrite Hcols in Hc.
      rewrite Hc in Hv. simpl in Hv.
      destruct (dropna (series df "Fakultas")); [by apply elem_of_nil in Hin|].
      done. }
    rewrite Hnil. simpl. lia.
Qed.

Lemma num_fakultas_le_selected_witness :
  1 <= length (fakultas Sample.only_teknik).
Proof.
  apply (num_fakultas_le_selected Sample.t1 Sample.t1_filtered
           Sample.only_teknik 1);
    vm_compute; reflexivity.
Defined.
